(** * LexIntake front end: upload form, analyze call and results view

  A shallow embedding of the React components of the repository
  ([frontend/src/App.jsx], [components/UploadSection.jsx] and
  [components/AnalysisResults.jsx]) and the properties of the intake,
  submission and display paths that the specification states about them.

  React state is modelled by explicit state passing: every [useState]
  cell is a record field, every handler a function from the state before
  to the state after, together with the calls it makes to the outside
  (the [onAnalyze] callback, HTTP requests, browser effects). *)

From Stdlib Require Import Ascii String DecimalString QArith Qround Qpower Lqa.
From stdpp Require Import gmap strings list.

Local Open Scope string_scope.
Local Open Scope list_scope.

(** ** JavaScript values *)

Module Js.

(** The scalar values a JSON response (or an absent property) can put in
    a field.  JSON numbers are finite; the components only test them for
    zero, multiply them by 100 and print them, so they are kept as
    rationals. *)
Inductive value : Type :=
| undefined
| null
| boolean (b : bool)
| number (q : Q)
| str (s : string).

(** ToBoolean. *)
Definition truthy (v : value) : bool :=
  match v with
  | undefined | null => false
  | boolean b => b
  | number q => negb (Qeq_bool q 0)
  | str s => negb (String.eqb s "")
  end.

(** [a || b]. *)
Definition or (a b : value) : value := if truthy a then a else b.

(** [a !== null]. *)
Definition isnt_null (v : value) : bool :=
  match v with null => false | _ => true end.

(** *** Strings *)

Definition lower_ascii (c : ascii) : ascii :=
  let n := nat_of_ascii c in
  if (65 <=? n)%nat && (n <=? 90)%nat then ascii_of_nat (n + 32) else c.

(** [s.toLowerCase()], on the ASCII letters. *)
Fixpoint toLowerCase (s : string) : string :=
  match s with
  | EmptyString => EmptyString
  | String c r => String (lower_ascii c) (toLowerCase r)
  end.

(** [s.endsWith(suffix)]. *)
Definition endsWith (s suffix : string) : bool :=
  let n := String.length s in
  let m := String.length suffix in
  (m <=? n)%nat && String.eqb (substring (n - m) m s) suffix.

(** [s.charAt(0) === c]. *)
Definition charAt0_is (s : string) (c : ascii) : bool :=
  match s with
  | String d _ => Ascii.eqb d c
  | EmptyString => false
  end.

(** [s.replace(/\/.*$/, '')]: what stands before the first slash. *)
Fixpoint before_slash (s : string) : string :=
  match s with
  | EmptyString => EmptyString
  | String c r => if Ascii.eqb c "/" then EmptyString else String c (before_slash r)
  end.

(** White space as [trim] sees it, among the ASCII characters: tab, line
    feed, vertical tab, form feed, carriage return and space. *)
Definition is_space (c : ascii) : bool :=
  let n := nat_of_ascii c in
  ((9 <=? n)%nat && (n <=? 13)%nat) || (n =? 32)%nat.

Fixpoint trimStart (s : string) : string :=
  match s with
  | EmptyString => EmptyString
  | String c r => if is_space c then trimStart r else s
  end.

Fixpoint trimEnd (s : string) : string :=
  match s with
  | EmptyString => EmptyString
  | String c r =>
      match trimEnd r with
      | EmptyString => if is_space c then EmptyString else String c EmptyString
      | r' => String c r'
      end
  end.

(** [s.trim()]. *)
Definition trim (s : string) : string := trimEnd (trimStart s).

(** [parts.join(sep)]. *)
Fixpoint join (sep : string) (parts : list string) : string :=
  match parts with
  | [] => ""
  | [p] => p
  | p :: rest => p +:+ sep +:+ join sep rest
  end.

(** [xs.filter((_, i) => keep(i))], the index counted from [i]. *)
Fixpoint filter_index {A} (keep : nat -> bool) (i : nat) (xs : list A) : list A :=
  match xs with
  | [] => []
  | x :: rest =>
      if keep i then x :: filter_index keep (S i) rest
      else filter_index keep (S i) rest
  end.

End Js.

(** ** Files *)

Module File.

(** What the components read of a browser [File]. *)
Record t : Type := mk {
  name : string;
  type : string;   (* the MIME type the browser reports *)
  size : N;        (* bytes *)
}.

End File.

(** ** react-dropzone

  [useDropzone] is a library hook; the component only passes it options.
  The model follows the library's drop handler: each dropped file is
  checked against the [accept] option (through [attr-accept], on the MIME
  type and on the file name) and against [maxSize]; with
  [multiple: false] a drop of more than one acceptable file is rejected
  as a whole; the files that remain are handed to [onDrop]. *)

Module Dropzone.

Record options : Type := mk {
  accept : list (string * list string);
  multiple : bool;
  maxSize : N;
}.

(** The accept object flattened to the list of MIME patterns and
    extensions that [attr-accept] receives. *)
Definition acceptPropAsAcceptAttr (acc : list (string * list string)) : list string :=
  flat_map (fun e => fst e :: snd e) acc.

(** [attr-accept]: one pattern against one file.  A pattern starting with
    a dot is an extension and is compared with the end of the file name;
    a pattern ending in [/*] is compared with the part of the MIME type
    before the slash; any other pattern is compared with the MIME type. *)
Definition matches (f : File.t) (pattern : string) : bool :=
  let fileName := File.name f in
  let mimeType := Js.toLowerCase (File.type f) in
  let baseMimeType := Js.before_slash mimeType in
  let validType := Js.toLowerCase (Js.trim pattern) in
  if Js.charAt0_is validType "."
  then Js.endsWith (Js.toLowerCase fileName) validType
  else if Js.endsWith validType "/*"
  then String.eqb baseMimeType (Js.before_slash validType)
  else String.eqb mimeType validType.

Definition accepts (f : File.t) (acceptedFiles : list string) : bool :=
  existsb (matches f) acceptedFiles.

Definition fileAccepted (f : File.t) (acc : list (string * list string)) : bool :=
  String.eqb (File.type f) "application/x-moz-file"
  || accepts f (acceptPropAsAcceptAttr acc).

Definition fileMatchSize (f : File.t) (maxSize : N) : bool :=
  negb (maxSize <? File.size f)%N.

(** One file passes when its type and its size do. *)
Definition accepted (o : options) (f : File.t) : bool :=
  fileAccepted f (accept o) && fileMatchSize f (maxSize o).

(** The list handed to [onDrop] for a drop of [files]. *)
Definition acceptedFiles (o : options) (files : list File.t) : list File.t :=
  let ok := List.filter (accepted o) files in
  if negb (multiple o) && (1 <? length ok)%nat then [] else ok.

End Dropzone.

(** ** FormData *)

Module FormData.

Inductive entry_value : Type :=
| file (f : File.t)
| text (s : string).

(** The entries in the order of their [append]; a key can occur several
    times ([photos] does). *)
Definition t : Type := list (string * entry_value).

Definition empty : t := [].

Definition append (fd : t) (key : string) (v : entry_value) : t :=
  fd ++ [(key, v)].

Definition getAll (key : string) (fd : t) : list entry_value :=
  map snd (List.filter (fun e => String.eqb (fst e) key) fd).

Definition has (key : string) (fd : t) : bool :=
  existsb (fun e => String.eqb (fst e) key) fd.

End FormData.

(** ** components/UploadSection.jsx *)

Module UploadSection.

Record client_info : Type := mk_client_info {
  name : string;
  email : string;
  notes : string;
}.

Record state : Type := mk {
  mainReport : option File.t;
  additionalPhotos : list File.t;
  clientInfo : client_info;
  errors : gmap string Js.value;
}.

Definition initial : state :=
  {| mainReport := None;
     additionalPhotos := [];
     clientInfo := {| name := ""; email := ""; notes := "" |};
     errors := ∅ |}.

Definition image_extensions : list string :=
  [".png"; ".jpg"; ".jpeg"; ".gif"; ".bmp"].

(** The options of the main report dropzone. *)
Definition reportOptions : Dropzone.options :=
  {| Dropzone.accept :=
       [("application/pdf", [".pdf"]); ("image/*", image_extensions)];
     Dropzone.multiple := false;
     Dropzone.maxSize := 10485760 |}.

(** The options of the photos dropzone. *)
Definition photosOptions : Dropzone.options :=
  {| Dropzone.accept := [("image/*", image_extensions)];
     Dropzone.multiple := true;
     Dropzone.maxSize := 10485760 |}.

Definition onDropReport (acceptedFiles : list File.t) (st : state) : state :=
  match acceptedFiles with
  | f :: _ =>
      {| mainReport := Some f;
         additionalPhotos := additionalPhotos st;
         clientInfo := clientInfo st;
         errors := <["report" := Js.null]> (errors st) |}
  | [] => st
  end.

Definition onDropPhotos (acceptedFiles : list File.t) (st : state) : state :=
  {| mainReport := mainReport st;
     additionalPhotos := take 5 (additionalPhotos st ++ acceptedFiles);
     clientInfo := clientInfo st;
     errors := errors st |}.

Definition removePhoto (index : nat) (st : state) : state :=
  {| mainReport := mainReport st;
     additionalPhotos :=
       Js.filter_index (fun i => negb (i =? index)%nat) 0 (additionalPhotos st);
     clientInfo := clientInfo st;
     errors := errors st |}.

Definition report_required : string := "Kaza Tespit Tutanağı is required".

(** Returns whether the form is valid, and the state with the new
    [errors] object. *)
Definition validateForm (st : state) : bool * state :=
  let newErrors : gmap string Js.value :=
    match mainReport st with
    | None => <["report" := Js.str report_required]> ∅
    | Some _ => ∅
    end in
  ((size newErrors =? 0)%nat,
   {| mainReport := mainReport st;
      additionalPhotos := additionalPhotos st;
      clientInfo := clientInfo st;
      errors := newErrors |}).

(** [if (v) formData.append(key, v)] for a string [v]. *)
Definition append_if_truthy (fd : FormData.t) (key v : string) : FormData.t :=
  if Js.truthy (Js.str v) then FormData.append fd key (FormData.text v) else fd.

(** The body of [handleSubmit] after validation.  [FormData.append]
    turns a value that is not a file into a string, [null] into
    ["null"]. *)
Definition buildFormData (st : state) : FormData.t :=
  let formData := FormData.empty in
  let formData :=
    FormData.append formData "accident_report"
      (match mainReport st with
       | Some f => FormData.file f
       | None => FormData.text "null"
       end) in
  let formData :=
    fold_left (fun fd photo => FormData.append fd "photos" (FormData.file photo))
      (additionalPhotos st) formData in
  let formData := append_if_truthy formData "client_name" (name (clientInfo st)) in
  let formData := append_if_truthy formData "client_email" (email (clientInfo st)) in
  let formData := append_if_truthy formData "additional_notes" (notes (clientInfo st)) in
  formData.

(** The state after the handler, and the arguments of its calls to
    [onAnalyze], in order. *)
Definition handleSubmit (st : state) : state * list FormData.t :=
  let '(valid, st') := validateForm st in
  if negb valid then (st', [])
  else (st', [buildFormData st]).

(** What the user can do on the form. *)
Inductive event : Type :=
| DropReport (files : list File.t)
| DropPhotos (files : list File.t)
| RemovePhoto (index : nat)
| ClearReport
| ChangeName (v : string)
| ChangeEmail (v : string)
| ChangeNotes (v : string).

Definition setClientInfo (f : client_info -> client_info) (st : state) : state :=
  {| mainReport := mainReport st;
     additionalPhotos := additionalPhotos st;
     clientInfo := f (clientInfo st);
     errors := errors st |}.

Definition step (st : state) (e : event) : state :=
  match e with
  | DropReport files =>
      onDropReport (Dropzone.acceptedFiles reportOptions files) st
  | DropPhotos files =>
      onDropPhotos (Dropzone.acceptedFiles photosOptions files) st
  | RemovePhoto index => removePhoto index st
  | ClearReport =>
      {| mainReport := None;
         additionalPhotos := additionalPhotos st;
         clientInfo := clientInfo st;
         errors := errors st |}
  | ChangeName v =>
      setClientInfo (fun prev => {| name := v; email := email prev; notes := notes prev |}) st
  | ChangeEmail v =>
      setClientInfo (fun prev => {| name := name prev; email := v; notes := notes prev |}) st
  | ChangeNotes v =>
      setClientInfo (fun prev => {| name := name prev; email := email prev; notes := v |}) st
  end.

(** The submit button carries [disabled={!mainReport}]: a click reaches
    [handleSubmit] only when a report is selected. *)
Definition submit_enabled (st : state) : bool :=
  match mainReport st with Some _ => true | None => false end.

End UploadSection.

(** ** The response of [POST /api/analyze]

  The fields that the modelled parts of the results view read.  A field
  that the view tests with [?.] or [&&] before use is optional ([None]:
  absent or [null]); a field that is only printed or compared is a
  [Js.value]. *)

Module Api.

Record AccidentDetails : Type := {
  date : Js.value;
  time : Js.value;
  location : Js.value;
}.

Record FaultAssessment : Type := {
  preliminary_fault_party : Js.value;
  party_a_fault_percentage : Js.value;
  party_b_fault_percentage : Js.value;
}.

Record FormCheckboxes : Type := {
  section_12_selections : option (list Js.value);
  section_13_selections : option (list Js.value);
}.

Record PhotoAnalysis : Type := {
  photo_id : Js.value;
  description : Js.value;
}.

Record Analysis : Type := {
  case_summary : Js.value;
  accident_details : AccidentDetails;
  fault_assessment : FaultAssessment;
  form_checkboxes : option FormCheckboxes;
  photo_analyses : option (list PhotoAnalysis);
  recommended_actions : option (list Js.value);
  extraction_confidence : option Q;
  missing_information : option (list string);
}.

Record Result : Type := {
  session_id : string;
  briefing_html : string;
  analysis : Analysis;
}.

End Api.

(** ** Rendered output *)

Module Dom.

(** What a JSX expression renders to.  Of an element the tag (or the
    component name, for an icon), its [className] and its children are
    kept. *)
#[warnings="-register-all"]
Inductive node : Type :=
| text (s : string)
| num (q : Q)
| nothing
| elem (tag className : string) (children : list node).

(** How React renders a scalar in child position: strings and numbers
    are printed (the number [0] too), [null], [undefined] and booleans
    render nothing. *)
Definition child (v : Js.value) : node :=
  match v with
  | Js.str s => text s
  | Js.number q => num q
  | Js.undefined | Js.null | Js.boolean _ => nothing
  end.

(** [{v && jsx}]: the JSX when [v] is truthy, else [v] itself as child. *)
Definition and_jsx (v : Js.value) (jsx : node) : node :=
  if Js.truthy v then jsx else child v.

(** [{b && jsx}] for a comparison [b]: [false] renders nothing. *)
Definition when (b : bool) (jsx : node) : node :=
  if b then jsx else nothing.

(** [xs?.length > 0]. *)
Definition nonempty {A} (xs : option (list A)) : bool :=
  match xs with
  | Some (_ :: _) => true
  | _ => false
  end.

(** [xs.map(f)] in child position, under the guard [xs?.length > 0]. *)
Definition items {A} (f : A -> node) (xs : option (list A)) : list node :=
  match xs with
  | Some l => map f l
  | None => []
  end.

(** The node itself and all nodes below it, in document order. *)
Fixpoint nodes (n : node) : list node :=
  n :: match n with
       | elem _ _ children => flat_map nodes children
       | _ => []
       end.

Definition is_elem (n : node) : bool :=
  match n with elem _ _ _ => true | _ => false end.

Definition has_class (c : string) (n : node) : bool :=
  match n with
  | elem _ cl _ => String.eqb cl c
  | _ => false
  end.

(** The elements of class [c] in the tree [n]. *)
Definition by_class (c : string) (n : node) : list node :=
  List.filter (has_class c) (nodes n).

(** [Math.round(x)]: to the nearest integer, halves upwards. *)
Definition round (x : Q) : Z := Qfloor (x + (1 # 2))%Q.

End Dom.

(** ** Floating point

    A JavaScript number is an IEEE 754 double.  A finite double is kept by
    its exact value, a rational; an arithmetic operation on doubles is the
    exact operation followed by rounding to the nearest double, ties to
    the even mantissa. *)

Module Double.

Inductive t : Type :=
| finite (x : Q)
| infinity (negative : bool).

(** The integer part of the binary logarithm of [n / d]. *)
Definition floor_log2 (n d : positive) : Z :=
  let a := Z.log2 (Z.pos n) in
  let b := Z.log2 (Z.pos d) in
  if (Z.pos d * 2 ^ a <=? Z.pos n * 2 ^ b)%Z then (a - b)%Z else (a - b - 1)%Z.

(** To the nearest integer, a half to the even one. *)
Definition nearest_even (x : Q) : Z :=
  let k := Qfloor x in
  match (x - inject_Z k ?= 1 # 2)%Q with
  | Lt => k
  | Gt => (k + 1)%Z
  | Eq => if Z.even k then k else (k + 1)%Z
  end.

(** The exponent of the last mantissa bit of the doubles around [n / d]:
    53 bits of mantissa, and no exponent below that of the subnormal
    numbers. *)
Definition ulp_exponent (n d : positive) : Z :=
  Z.max (floor_log2 n d - 52) (-1074).

(** The multiple of [2 ^ ulp_exponent] nearest to [n / d > 0]. *)
Definition nearest (n d : positive) : Q :=
  let q := ulp_exponent n d in
  (inject_Z (nearest_even ((Z.pos n # d) / 2 ^ q)) * 2 ^ q)%Q.

(** Rounding of a positive number: beyond the largest double stands
    [Infinity].  A finite value is kept as a reduced fraction. *)
Definition round_pos (n d : positive) : t :=
  let y := nearest n d in
  if Qle_bool (2 ^ 1024) y then infinity false else finite (Qred y).

Definition opp (d : t) : t :=
  match d with
  | finite x => finite (- x)
  | infinity negative => infinity (negb negative)
  end.

(** The double nearest to a rational. *)
Definition of_Q (x : Q) : t :=
  match Qnum x with
  | Z0 => finite 0
  | Z.pos n => round_pos n (Qden x)
  | Z.neg n => opp (round_pos n (Qden x))
  end.

(** [a * b] on doubles. *)
Definition mul (a b : Q) : t := of_Q (a * b).

(** [Math.round(d)]: to the nearest integer, halves upwards; [Infinity]
    stays. *)
Definition math_round (d : t) : t :=
  match d with
  | finite x => finite (inject_Z (Dom.round x))
  | infinity negative => infinity negative
  end.

(** A number in child position, as React prints it. *)
Definition child (d : t) : Dom.node :=
  match d with
  | finite x => Dom.num x
  | infinity negative => Dom.text (if negative then "-Infinity" else "Infinity")
  end.

End Double.

(** ** JSON values

    What [JSON.parse] makes of a response body: a scalar, an array or a
    plain object.  A scalar stands for itself. *)

Module Json.

#[warnings="-register-all"]
Inductive t : Type :=
| scalar (v : Js.value)
| array (items : list t)
| object (fields : list (string * t)).

(** ToBoolean: arrays and objects are truthy, the empty ones too. *)
Definition truthy (j : t) : bool :=
  match j with
  | scalar v => Js.truthy v
  | array _ | object _ => true
  end.

(** [a || b]. *)
Definition or (a b : t) : t := if truthy a then a else b.

(** What React makes of a value in child position: a scalar is one child,
    an array is flattened to the children of its items, and a plain object
    makes the render throw ("Objects are not valid as a React child"),
    which is [None]. *)
Fixpoint children (j : t) : option (list Dom.node) :=
  match j with
  | scalar v => Some [Dom.child v]
  | array items =>
      (fix go (l : list t) : option (list Dom.node) :=
         match l with
         | [] => Some []
         | x :: rest =>
             match children x, go rest with
             | Some a, Some b => Some (a ++ b)
             | _, _ => None
             end
         end) items
  | object _ => None
  end.

End Json.

(** A scalar is read as a JSON value where one is expected. *)
Coercion Json.scalar : Js.value >-> Json.t.

(** ** components/AnalysisResults.jsx *)

Module AnalysisResults.

Import Dom.

(** *** downloadBriefing *)

Record blob : Type := {
  content : string;
  blob_type : string;
}.

(** What the handler does to the browser: saving a blob under a file name
    (the click on an anchor whose [href] is the object URL of the blob and
    whose [download] is the name), or an [alert]. *)
Inductive effect : Type :=
| save_as (filename : string) (b : blob)
| alert (message : string).

Definition downloadBriefing (format : string) (result : Api.Result) : list effect :=
  if String.eqb format "html" then
    let b := {| content := Api.briefing_html result; blob_type := "text/html" |} in
    [save_as ("lexintake_briefing_" +:+ Api.session_id result +:+ ".html") b]
  else if String.eqb format "pdf" then
    [alert "PDF download will be implemented with backend integration"]
  else [].

(** The bytes that a run of the handler hands to the user as files. *)
Definition saved (effs : list effect) : list (string * string) :=
  flat_map (fun e => match e with
                     | save_as n b => [(n, content b)]
                     | alert _ => []
                     end) effs.

(** *** The summary tab *)

Definition heading (icon title : string) : node :=
  elem "h3" "text-lg font-semibold mb-3 flex items-center"
    [elem icon "mr-2 text-accent" []; text title].

Definition caseSummary (result : Api.Result) : node :=
  elem "div" ""
    [heading "FaFileAlt" "Case Summary";
     elem "p" "text-gray-700" [child (Api.case_summary (Api.analysis result))]].

Definition accidentDetails (result : Api.Result) : node :=
  let d := Api.accident_details (Api.analysis result) in
  elem "div" ""
    [heading "FaMapMarkerAlt" "Accident Details";
     elem "div" "grid md:grid-cols-2 gap-4"
       [elem "div" "flex items-center space-x-2"
          [elem "FaClock" "text-utility" [];
           elem "span" "font-medium" [text "Date & Time:"];
           elem "span" "" [child (Api.date d); text " - "; child (Api.time d)]];
        elem "div" "flex items-start space-x-2"
          [elem "FaMapMarkerAlt" "text-utility mt-1" [];
           elem "span" "font-medium" [text "Location:"];
           elem "span" "flex-1" [child (Api.location d)]]]].

(** [{fault_assessment.preliminary_fault_party && (<p> ... </p>)}] *)
Definition faultParty (result : Api.Result) : node :=
  let fa := Api.fault_assessment (Api.analysis result) in
  and_jsx (Api.preliminary_fault_party fa)
    (elem "p" "mb-2"
       [elem "strong" "" [text "Likely At-Fault Party:"];
        text " ";
        child (Api.preliminary_fault_party fa)]).

(** One box of the fault distribution: the party and its percentage. *)
Definition faultBox (party : string) (percentage : Js.value) : node :=
  elem "div" "flex-1"
    [elem "div" "bg-white rounded-lg p-3"
       [elem "p" "text-sm text-gray-600" [text party];
        elem "p" "text-2xl font-bold text-primary" [child percentage; text "%"]]].

(** [{fault_assessment.party_a_fault_percentage !== null && (<div> ... </div>)}] *)
Definition faultDistribution (result : Api.Result) : node :=
  let fa := Api.fault_assessment (Api.analysis result) in
  when (Js.isnt_null (Api.party_a_fault_percentage fa))
    (elem "div" "mt-3"
       [elem "p" "text-sm font-medium mb-2" [text "Estimated Fault Distribution:"];
        elem "div" "flex space-x-4"
          [faultBox "Party A" (Api.party_a_fault_percentage fa);
           faultBox "Party B" (Api.party_b_fault_percentage fa)]]).

Definition faultAssessment (result : Api.Result) : node :=
  elem "div" "bg-green-50 border-l-4 border-accent p-4 rounded-r-lg"
    [heading "FaBalanceScale" "Preliminary Fault Assessment";
     faultParty result;
     faultDistribution result].

(** [renderTabContent()] for [activeTab === 'summary']. *)
Definition summaryTab (result : Api.Result) : node :=
  elem "div" "space-y-6"
    [caseSummary result; accidentDetails result; faultAssessment result].

(** *** The details tab *)

Definition selections (title chip label : string) (sel : option (list Js.value)) : node :=
  when (nonempty sel)
    (elem "div" "mb-4"
       [elem "p" "font-medium text-gray-700" [text title];
        elem "div" "flex flex-wrap gap-2 mt-2"
          (items (fun code => elem "span" chip [text label; child code]) sel)]).

Definition formAnalysis (result : Api.Result) : node :=
  match Api.form_checkboxes (Api.analysis result) with
  | None => nothing
  | Some fc =>
      elem "div" ""
        [elem "h3" "text-lg font-semibold mb-3" [text "Form Analysis"];
         selections "Damage Zones (Section 12):"
           "bg-red-100 text-red-800 px-3 py-1 rounded-full text-sm" "Zone "
           (Api.section_12_selections fc);
         selections "Accident Scenarios (Section 13):"
           "bg-blue-100 text-blue-800 px-3 py-1 rounded-full text-sm" "Scenario "
           (Api.section_13_selections fc)]
  end.

(** The card of one entry of [photo_analyses]. *)
Definition photoCard (photo : Api.PhotoAnalysis) : node :=
  elem "div" "bg-gray-50 rounded-lg p-4"
    [elem "p" "font-medium text-gray-700"
       [text "Photo "; child (Api.photo_id photo); text ":"];
     elem "p" "text-gray-600 mt-1" [child (Api.description photo)]].

(** [{photo_analyses?.length > 0 && (<div> ... </div>)}] *)
Definition photoAnalysis (result : Api.Result) : node :=
  let photos := Api.photo_analyses (Api.analysis result) in
  when (nonempty photos)
    (elem "div" ""
       [elem "h3" "text-lg font-semibold mb-3" [text "Photo Analysis"];
        elem "div" "space-y-3" (items photoCard photos)]).

Definition recommendedActions (result : Api.Result) : node :=
  let actions := Api.recommended_actions (Api.analysis result) in
  when (nonempty actions)
    (elem "div" ""
       [elem "h3" "text-lg font-semibold mb-3" [text "Recommended Actions"];
        elem "ul" "space-y-2"
          (items (fun action =>
                    elem "li" "flex items-start"
                      [elem "FaCheckCircle" "text-accent mt-1 mr-2 flex-shrink-0" [];
                       elem "span" "" [child action]]) actions)]).

(** [renderTabContent()] for [activeTab === 'details']. *)
Definition detailsTab (result : Api.Result) : node :=
  elem "div" "space-y-6"
    [formAnalysis result; photoAnalysis result; recommendedActions result].

(** *** The data quality indicator *)

Definition missing_class : string := "mt-3 text-sm text-orange-600".

(** [{missing_information?.length > 0 && (<div> ... </div>)}] *)
Definition missingWarning (result : Api.Result) : node :=
  let missing := Api.missing_information (Api.analysis result) in
  when (nonempty missing)
    (elem "div" missing_class
       [elem "FaExclamationTriangle" "inline mr-1" [];
        text "Missing: ";
        text (Js.join ", " (default [] missing))]).

(** The card shown for a confidence [c]. *)
Definition confidenceCard (c : Q) (result : Api.Result) : node :=
  elem "div" "card"
    [elem "div" "flex items-center justify-between mb-2"
       [elem "span" "font-medium" [text "Analysis Confidence"];
        elem "span" "text-lg font-bold text-accent"
          [Double.child (Double.math_round (Double.mul c 100)); text "%"]];
     elem "div" "bg-gray-200 rounded-full h-3 overflow-hidden"
       [elem "div" "bg-accent h-full rounded-full transition-all duration-500" []];
     missingWarning result].

(** [{result.analysis.extraction_confidence && (<div className="card"> ... </div>)}] *)
Definition dataQualityIndicator (result : Api.Result) : node :=
  match Api.extraction_confidence (Api.analysis result) with
  | None => nothing
  | Some c => and_jsx (Js.number c) (confidenceCard c result)
  end.

End AnalysisResults.

(** ** axios

    [axios.post] is a library call.  Its outcome is decided by what the
    server does: it answers after [latency] milliseconds with a 2xx status
    and the result, or with another status and an error body, or it does
    not answer.  With a [timeout] option other than 0, a request that takes
    longer than [timeout] milliseconds is aborted and the promise rejects
    with an error that has no [response]. *)

Module Axios.

Record error_body : Type := { detail : Json.t }.

Record error_response : Type := {
  status : Z;
  data : option error_body;   (* [None]: no body, or one that is no object *)
}.

Record error : Type := { response : option error_response }.

Inductive outcome : Type :=
| resolved (data : Api.Result)
| rejected (err : error).

Inductive reply : Type :=
| answers (latency : N) (result : Api.Result)
| refuses (latency : N) (status : Z) (body : option error_body)
| silent.

Record request : Type := {
  url : string;
  body : FormData.t;
  content_type : string;
  timeout : N;
}.

Definition timed_out (timeout latency : N) : bool :=
  negb (timeout =? 0)%N && (timeout <? latency)%N.

Definition post (req : request) (r : reply) : outcome :=
  match r with
  | answers latency result =>
      if timed_out (timeout req) latency
      then rejected {| response := None |}
      else resolved result
  | refuses latency st b =>
      if timed_out (timeout req) latency
      then rejected {| response := None |}
      else rejected {| response := Some {| status := st; data := b |} |}
  | silent => rejected {| response := None |}
  end.

(** [err.response?.data?.detail] *)
Definition response_data_detail (err : error) : Json.t :=
  match response err with
  | None => Js.undefined
  | Some r =>
      match data r with
      | None => Js.undefined
      | Some b => detail b
      end
  end.

End Axios.

(** ** App.jsx *)

Module App.

(** [import.meta.env] and [window], as [resolveApiBaseUrl] reads them. *)
Record env : Type := {
  VITE_BACKEND_URL : option string;
  DEV : bool;
  window_origin : option string;   (* [None]: there is no [window] *)
}.

Definition resolveApiBaseUrl (e : env) : string :=
  let otherwise :=
    if DEV e then "http://localhost:8000"
    else match window_origin e with
         | Some origin => origin
         | None => ""
         end in
  match VITE_BACKEND_URL e with
  | Some u => if Js.truthy (Js.str u) then u else otherwise
  | None => otherwise
  end.

Inductive step_name : Type := upload | analyzing | results.

Record state : Type := mk {
  currentStep : step_name;
  analysisResult : option Api.Result;
  error : Json.t;
}.

Definition initial : state :=
  {| currentStep := upload; analysisResult := None; error := Js.null |}.

Definition setCurrentStep (s : step_name) (st : state) : state :=
  {| currentStep := s; analysisResult := analysisResult st; error := error st |}.

Definition setAnalysisResult (r : option Api.Result) (st : state) : state :=
  {| currentStep := currentStep st; analysisResult := r; error := error st |}.

Definition setError (e : Json.t) (st : state) : state :=
  {| currentStep := currentStep st; analysisResult := analysisResult st; error := e |}.

Definition fallback_message : string :=
  "An error occurred during analysis. Please try again.".

Definition analyze_request (e : env) (formData : FormData.t) : Axios.request :=
  {| Axios.url := resolveApiBaseUrl e +:+ "/api/analyze";
     Axios.body := formData;
     Axios.content_type := "multipart/form-data";
     Axios.timeout := 120000 |}.

(** The state while the request is in flight. *)
Definition handleAnalyze_begin (st : state) : state :=
  setError Js.null (setCurrentStep analyzing st).

(** The state once the promise has settled. *)
Definition handleAnalyze_settle (o : Axios.outcome) (st : state) : state :=
  match o with
  | Axios.resolved data =>
      setCurrentStep results (setAnalysisResult (Some data) st)
  | Axios.rejected err =>
      setCurrentStep upload
        (setError (Json.or (Axios.response_data_detail err) (Js.str fallback_message)) st)
  end.

(** [handleAnalyze]: the final state and the requests sent, given what the
    server does with a request. *)
Definition handleAnalyze (e : env) (server : Axios.request -> Axios.reply)
    (formData : FormData.t) (st : state) : state * list Axios.request :=
  let st := handleAnalyze_begin st in
  let req := analyze_request e formData in
  (handleAnalyze_settle (Axios.post req (server req)) st, [req]).

Definition handleReset (st : state) : state :=
  setError Js.null (setAnalysisResult None (setCurrentStep upload st)).

(** [{error && (<div> <p>{error}</p> </div>)}]; [None] when rendering
    the error throws. *)
Definition errorBanner (st : state) : option Dom.node :=
  let banner (kids : list Dom.node) :=
    Dom.elem "div" "bg-red-50 border-l-4 border-red-500 p-4 mb-6 rounded-r-lg"
      [Dom.elem "p" "text-red-800" kids] in
  match error st with
  | Json.scalar v => Some (Dom.and_jsx v (banner [Dom.child v]))
  | j =>
      match Json.children j with
      | Some kids => Some (banner kids)
      | None => None
      end
  end.

(** Which of the three step components [main] shows. *)
Inductive screen : Type :=
| UploadScreen
| LoadingScreen
| ResultsScreen (result : Api.Result)
| NoScreen.

Definition main_screen (st : state) : screen :=
  match currentStep st with
  | upload => UploadScreen
  | analyzing => LoadingScreen
  | results =>
      match analysisResult st with
      | Some r => ResultsScreen r
      | None => NoScreen
      end
  end.

(** What [main] renders: the error banner and the step component.  No
    error boundary stands around [App], so when the banner throws React
    unmounts the whole page and nothing is shown, which is [None]. *)
Definition render (st : state) : option (Dom.node * screen) :=
  match errorBanner st with
  | Some banner => Some (banner, main_screen st)
  | None => None
  end.

(** *** The page: [App] with the [UploadSection] it mounts

    [UploadSection] is mounted while [currentStep] is [upload]; when the
    step comes back to [upload] a new one is mounted, with its initial
    state.  [sent] collects the requests issued so far. *)

Record page : Type := mk_page {
  app : state;
  form : UploadSection.state;
  sent : list Axios.request;
}.

Definition start : page :=
  {| app := initial; form := UploadSection.initial; sent := [] |}.

Inductive action : Type :=
| OnForm (e : UploadSection.event)
| ClickSubmit
| ClickReset.

(** [handleSubmit] with [onAnalyze={handleAnalyze}]. *)
Definition submit (e : env) (server : Axios.request -> Axios.reply) (p : page) : page :=
  match UploadSection.handleSubmit (form p) with
  | (form', []) => {| app := app p; form := form'; sent := sent p |}
  | (_, formData :: _) =>
      let '(app', reqs) := handleAnalyze e server formData (app p) in
      {| app := app'; form := UploadSection.initial; sent := sent p ++ reqs |}
  end.

Definition act (e : env) (server : Axios.request -> Axios.reply)
    (p : page) (a : action) : page :=
  match main_screen (app p), a with
  | UploadScreen, OnForm ev =>
      {| app := app p; form := UploadSection.step (form p) ev; sent := sent p |}
  | UploadScreen, ClickSubmit =>
      if UploadSection.submit_enabled (form p) then submit e server p else p
  | ResultsScreen _, ClickReset =>
      {| app := handleReset (app p); form := UploadSection.initial; sent := sent p |}
  | _, _ => p
  end.

(** The pages that a sequence of actions leads to, whatever the server
    answers. *)
Inductive reachable (e : env) : page -> Prop :=
| reachable_start : reachable e start
| reachable_act server p a : reachable e p -> reachable e (act e server p a).

End App.

(** ** Sample data *)

Module Sample.

Definition pdf : File.t :=
  {| File.name := "tutanak.pdf"; File.type := "application/pdf"; File.size := 204800 |}.

Definition webp : File.t :=
  {| File.name := "scan.webp"; File.type := "image/webp"; File.size := 4096 |}.

Definition photo (n : string) : File.t :=
  {| File.name := n +:+ ".jpg"; File.type := "image/jpeg"; File.size := 1048576 |}.

Definition seven_photos : list File.t :=
  map photo ["a"; "b"; "c"; "d"; "e"; "f"; "g"].

Definition env : App.env :=
  {| App.VITE_BACKEND_URL := None; App.DEV := true; App.window_origin := None |}.

Definition analysis : Api.Analysis :=
  {| Api.case_summary := Js.str "Rear-end collision at a junction.";
     Api.accident_details :=
       {| Api.date := Js.str "2024-03-01"; Api.time := Js.str "08:30";
          Api.location := Js.str "Ankara" |};
     Api.fault_assessment :=
       {| Api.preliminary_fault_party := Js.str "Party B";
          Api.party_a_fault_percentage := Js.number 30%Q;
          Api.party_b_fault_percentage := Js.null |};
     Api.form_checkboxes := None;
     Api.photo_analyses :=
       Some [ {| Api.photo_id := Js.number 1%Q; Api.description := Js.str "Front bumper" |};
              {| Api.photo_id := Js.number 2%Q; Api.description := Js.str "Rear door" |} ];
     Api.recommended_actions := None;
     Api.extraction_confidence := Some 0%Q;
     Api.missing_information := Some ["party_b.insurance_company"] |}.

Definition result : Api.Result :=
  {| Api.session_id := "abc123";
     Api.briefing_html := "<html><body>Briefing</body></html>";
     Api.analysis := analysis |}.

(** A server that takes 130 seconds to answer. *)
Definition slow_server (_ : Axios.request) : Axios.reply :=
  Axios.answers 130000 result.

(** A server that refuses with a message. *)
Definition refusing_server (_ : Axios.request) : Axios.reply :=
  Axios.refuses 350 500
    (Some {| Axios.detail := Js.str "Analysis failed: unreadable document" |}).

Definition good_server (_ : Axios.request) : Axios.reply :=
  Axios.answers 9000 result.

(** The [detail] of a request validation error of the backend framework
    (status 422): a list of objects. *)
Definition validation_detail : Json.t :=
  Json.array
    [Json.object
       [("loc", Json.array [Json.scalar (Js.str "body");
                            Json.scalar (Js.str "accident_report")]);
        ("msg", Json.scalar (Js.str "Field required"));
        ("type", Json.scalar (Js.str "missing"))]].

(** A server that refuses with a validation error. *)
Definition validation_server (_ : Axios.request) : Axios.reply :=
  Axios.refuses 40 422 (Some {| Axios.detail := validation_detail |}).

(** A form with a report, and a client name that is one space. *)
Definition blank_name : UploadSection.state :=
  {| UploadSection.mainReport := Some pdf;
     UploadSection.additionalPhotos := [];
     UploadSection.clientInfo :=
       {| UploadSection.name := " "; UploadSection.email := "";
          UploadSection.notes := "Other driver ran the red light" |};
     UploadSection.errors := ∅ |}.

(** A report and seven photos dropped, then the form submitted. *)
Definition filled : App.page :=
  App.act env good_server
    (App.act env good_server App.start
       (App.OnForm (UploadSection.DropReport [pdf])))
    (App.OnForm (UploadSection.DropPhotos seven_photos)).

Definition submitted : App.page := App.act env good_server filled App.ClickSubmit.

End Sample.

(** ** What the specification asks of the intake *)

Module Spec.

(** The media types of the allow-list of the specification, as MIME types
    and as file name extensions. *)
Definition allowed_mime : list string :=
  ["application/pdf"; "image/png"; "image/jpg"; "image/jpeg"; "image/gif"; "image/bmp"].

Definition allowed_extensions : list string :=
  [".pdf"; ".png"; ".jpg"; ".jpeg"; ".gif"; ".bmp"].

(** A file is of an allowed media type when its MIME type or the extension
    of its name is on the list. *)
Definition media_type_allowed (f : File.t) : bool :=
  existsb (String.eqb (Js.toLowerCase (File.type f))) allowed_mime
  || existsb (Js.endsWith (Js.toLowerCase (File.name f))) allowed_extensions.

Definition max_bytes : N := 10485760.

(** The three metadata keys of a request. *)
Definition metadata_keys : list string :=
  ["client_name"; "client_email"; "additional_notes"].

(** What a sent request must satisfy: at most five photos, and one primary
    document that the report dropzone accepted. *)
Definition request_ok (req : Axios.request) : Prop :=
  length (FormData.getAll "photos" (Axios.body req)) <= 5 /\
  exists g, FormData.getAll "accident_report" (Axios.body req) = [FormData.file g]
            /\ Dropzone.accepted UploadSection.reportOptions g = true.

(** The invariant of the page. *)
Definition page_ok (p : App.page) : Prop :=
  length (UploadSection.additionalPhotos (App.form p)) <= 5 /\
  (forall f, UploadSection.mainReport (App.form p) = Some f ->
             Dropzone.accepted UploadSection.reportOptions f = true) /\
  Forall request_ok (App.sent p).

(** The metadata of the form, under the keys of the request. *)
Definition metadata (c : UploadSection.client_info) : list (string * string) :=
  [("client_name", UploadSection.name c);
   ("client_email", UploadSection.email c);
   ("additional_notes", UploadSection.notes c)].

(** After how long the server answers, when it does. *)
Definition latency (r : Axios.reply) : option N :=
  match r with
  | Axios.answers l _ => Some l
  | Axios.refuses l _ _ => Some l
  | Axios.silent => None
  end.

(** The class of the card of one photo analysis. *)
Definition photo_card_class : string := "bg-gray-50 rounded-lg p-4".

(** The heading line of the card of a photo with number [n]. *)
Definition photo_label (n : Z) : Dom.node :=
  Dom.elem "p" "font-medium text-gray-700"
    [Dom.text "Photo "; Dom.num (inject_Z n); Dom.text ":"].

(** The entries that an optional text field contributes to a request. *)
Definition field (key v : string) : FormData.t :=
  if String.eqb v "" then [] else [(key, FormData.text v)].

End Spec.

(** ** Numbers as text *)

Module JsNumber.

(** The decimal digits of a natural number. *)
Definition decimal (n : N) : string := NilEmpty.string_of_uint (N.to_uint n).

Definition two_digits (n : N) : string :=
  (if (n <? 10)%N then "0" else "") +:+ decimal n.

(** The integer [n] for which [n / 100] is nearest to [x >= 0], the larger
    one of two. *)
Definition hundredths (x : Q) : N := Z.to_N (Qfloor (x * 100 + (1 # 2))%Q).

(** [x.toFixed(2)], for [x] below [10^21]: the sign, then the digits of
    the hundredths with the point before the last two. *)
Definition toFixed2 (x : Q) : string :=
  let fixed (y : Q) :=
    let n := hundredths y in
    decimal (n / 100) +:+ "." +:+ two_digits (n mod 100) in
  if (Qnum x <? 0)%Z then "-" +:+ fixed (- x)%Q else fixed x.

End JsNumber.

(** ** components/UploadSection.jsx: what the form shows *)

Module UploadSectionView.

(** [errors.report]: [undefined] when the object has no such property. *)
Definition errors_report (st : UploadSection.state) : Js.value :=
  default Js.undefined (UploadSection.errors st !! "report").

(** [{errors.report && (<p> {errors.report} </p>)}] *)
Definition reportError (st : UploadSection.state) : Dom.node :=
  Dom.and_jsx (errors_report st)
    (Dom.elem "p" "text-red-500 text-sm mt-2" [Dom.child (errors_report st)]).

(** [mainReport.size / 1024 / 1024]; the division of an integer below
    [2^53] by a power of two is exact in floating point. *)
Definition megabytes (f : File.t) : Q :=
  (inject_Z (Z.of_N (File.size f)) / 1024 / 1024)%Q.

(** The name and the size of the selected report. *)
Definition reportSummary (f : File.t) : Dom.node :=
  Dom.elem "div" "text-left"
    [Dom.elem "p" "font-semibold" [Dom.text (File.name f)];
     Dom.elem "p" "text-sm text-gray-600"
       [Dom.text (JsNumber.toFixed2 (megabytes f)); Dom.text " MB"]].

End UploadSectionView.

(** ** components/AnalysisResults.jsx: the tabs *)

Module AnalysisResultsView.

Import Dom.

(** [result.analysis.party_a] and [party_b]. *)
Record Party : Type := {
  name : Js.value;
  vehicle_plate : Js.value;
  vehicle_type : Js.value;
  insurance_company : Js.value;
}.

(** The result together with the parties that the parties tab reads. *)
Record props : Type := {
  result : Api.Result;
  party_a : Party;
  party_b : Party;
}.

Definition partyRow (label value_class : string) (v : Js.value) : node :=
  elem "div" ""
    [elem "span" "font-medium text-gray-600" [text label];
     elem "p" value_class [child v]].

(** The card of one party; the two cards differ in colours and title. *)
Definition partyCard (card_class icon_class title : string) (p : Party) : node :=
  elem "div" card_class
    [elem "h3" "text-lg font-semibold mb-4 flex items-center"
       [elem "FaCar" icon_class []; text title];
     elem "div" "space-y-2"
       [partyRow "Name:" "text-lg" (name p);
        partyRow "Vehicle Plate:" "text-lg" (vehicle_plate p);
        partyRow "Vehicle Type:" "" (vehicle_type p);
        and_jsx (insurance_company p)
          (partyRow "Insurance:" "" (insurance_company p))]].

(** [renderTabContent()] for [activeTab === 'parties']. *)
Definition partiesTab (r : props) : node :=
  elem "div" "space-y-6"
    [elem "div" "grid md:grid-cols-2 gap-6"
       [partyCard "bg-blue-50 rounded-lg p-6" "mr-2 text-primary"
          "Party A (Sürücü A)" (party_a r);
        partyCard "bg-orange-50 rounded-lg p-6" "mr-2 text-orange-600"
          "Party B (Sürücü B)" (party_b r)]].

(** [renderTabContent()]; [parse] is the HTML parser of
    [html-react-parser], a library. *)
Definition renderTabContent (parse : string -> list node)
    (activeTab : string) (r : props) : node :=
  if String.eqb activeTab "summary" then AnalysisResults.summaryTab (result r)
  else if String.eqb activeTab "parties" then partiesTab r
  else if String.eqb activeTab "details" then AnalysisResults.detailsTab (result r)
  else if String.eqb activeTab "full" then
    elem "div" "prose max-w-none" (parse (Api.briefing_html (result r)))
  else nothing.

(** The tabs of the navigation: identifier and label. *)
Definition tabs : list (string * string) :=
  [("summary", "Summary"); ("parties", "Parties");
   ("details", "Details"); ("full", "Full Report")].

Definition active_class : string := "border-accent text-accent".

Definition inactive_class : string :=
  "border-transparent text-gray-600 hover:text-primary".

(** The class of a tab button: a template literal over two lines. *)
Definition tab_class (activeTab id : string) : string :=
  "pb-3 px-1 border-b-2 transition-colors font-medium"
  +:+ String "010" "                  "
  +:+ (if String.eqb activeTab id then active_class else inactive_class).

Definition tabButton (activeTab : string) (tab : string * string) : node :=
  elem "button" (tab_class activeTab (fst tab)) [text (snd tab)].

Definition tabBar (activeTab : string) : node :=
  elem "div" "border-b mb-6"
    [elem "div" "flex space-x-6" (map (tabButton activeTab) tabs)].

(** [useState('summary')] *)
Definition initialTab : string := "summary".

(** The values of [activeTab] that clicks on the tab buttons lead to. *)
Inductive tab_reachable : string -> Prop :=
| tab_initial : tab_reachable initialTab
| tab_click activeTab tab :
    tab_reachable activeTab -> In tab tabs -> tab_reachable (fst tab).

End AnalysisResultsView.

(** ** Invariants of the page *)

Module Inv.

(** The step and the stored result agree, and the results are shown
    without an error. *)
Definition app_ok (a : App.state) : Prop :=
  (App.currentStep a = App.upload /\ App.analysisResult a = None) \/
  (App.currentStep a = App.results /\ App.error a = Js.null /\
   exists r, App.analysisResult a = Some r).

Definition photo_ok (f : File.t) : Prop :=
  Dropzone.accepted UploadSection.photosOptions f = true.

Definition form_ok (st : UploadSection.state) : Prop :=
  Forall photo_ok (UploadSection.additionalPhotos st) /\
  (UploadSection.errors st !! "report" = None \/
   UploadSection.errors st !! "report" = Some Js.null).

(** A request was built by [handleSubmit] from a form with an accepted
    report and accepted photos, and sent by [handleAnalyze]. *)
Definition sent_ok (e : App.env) (req : Axios.request) : Prop :=
  exists st f,
    req = App.analyze_request e (UploadSection.buildFormData st) /\
    UploadSection.mainReport st = Some f /\
    Dropzone.accepted UploadSection.reportOptions f = true /\
    Forall photo_ok (UploadSection.additionalPhotos st) /\
    length (UploadSection.additionalPhotos st) <= 5.

Definition page_ok (e : App.env) (p : App.page) : Prop :=
  app_ok (App.app p) /\ form_ok (App.form p) /\ Forall (sent_ok e) (App.sent p).

(** Class names by which parts of the results view are found. *)
Definition zone_class : string :=
  "bg-red-100 text-red-800 px-3 py-1 rounded-full text-sm".

Definition scenario_class : string :=
  "bg-blue-100 text-blue-800 px-3 py-1 rounded-full text-sm".

Definition action_class : string := "flex items-start".

Definition fault_box_class : string := "bg-white rounded-lg p-3".

Definition row_label_class : string := "font-medium text-gray-600".

(** The label of a row of a party card. *)
Definition row_label (label : string) : Dom.node :=
  Dom.elem "span" row_label_class [Dom.text label].

(** The files among the entries of a request body. *)
Definition files (fd : FormData.t) : list File.t :=
  flat_map (fun e => match snd e with
                     | FormData.file f => [f]
                     | FormData.text _ => []
                     end) fd.

(** The keys of a request body, in order. *)
Definition keys (fd : FormData.t) : list string := map fst fd.

Definition known_keys : list string :=
  ["accident_report"; "photos"; "client_name"; "client_email"; "additional_notes"].

End Inv.

(** ** More sample data *)

Module Example.

Definition analysis (confidence : option Q) (missing : option (list string))
    (a b : Js.value) : Api.Analysis :=
  {| Api.case_summary := Js.str "Side collision while changing lanes.";
     Api.accident_details :=
       {| Api.date := Js.str "2024-05-12"; Api.time := Js.str "17:45";
          Api.location := Js.str "Izmir" |};
     Api.fault_assessment :=
       {| Api.preliminary_fault_party := Js.null;
          Api.party_a_fault_percentage := a;
          Api.party_b_fault_percentage := b |};
     Api.form_checkboxes :=
       Some {| Api.section_12_selections := Some [Js.number 1; Js.number 5];
               Api.section_13_selections := Some [] |};
     Api.photo_analyses := None;
     Api.recommended_actions :=
       Some [Js.str "Request the police report"; Js.str "Contact the insurer"];
     Api.extraction_confidence := confidence;
     Api.missing_information := missing |}.

Definition result (confidence : option Q) (missing : option (list string))
    (a b : Js.value) : Api.Result :=
  {| Api.session_id := "s-42";
     Api.briefing_html := "<h1>Briefing</h1>";
     Api.analysis := analysis confidence missing a b |}.

(** A confidence of 0.3 percent, and two missing fields. *)
Definition faint : Api.Result :=
  result (Some (3 # 1000)) (Some ["party_a.name"; "accident_details.time"])
    Js.null (Js.number 40).

Definition insured : AnalysisResultsView.Party :=
  {| AnalysisResultsView.name := Js.str "Ayse Yilmaz";
     AnalysisResultsView.vehicle_plate := Js.str "06 ABC 123";
     AnalysisResultsView.vehicle_type := Js.str "Sedan";
     AnalysisResultsView.insurance_company := Js.str "Anadolu Sigorta" |}.

Definition uninsured : AnalysisResultsView.Party :=
  {| AnalysisResultsView.name := Js.str "Mehmet Demir";
     AnalysisResultsView.vehicle_plate := Js.str "35 XYZ 789";
     AnalysisResultsView.vehicle_type := Js.str "Van";
     AnalysisResultsView.insurance_company := Js.null |}.

Definition props : AnalysisResultsView.props :=
  {| AnalysisResultsView.result := faint;
     AnalysisResultsView.party_a := insured;
     AnalysisResultsView.party_b := uninsured |}.

(** The double nearest to 0.015. *)
Definition c_0_015 : Q := 1080863910568919 # 72057594037927936.

(** A file of exactly the size limit. *)
Definition at_limit : File.t :=
  {| File.name := "tutanak.png"; File.type := "image/png"; File.size := 10485760 |}.

(** An HTML parser that keeps the text as it is. *)
Definition plain_parse (html : string) : list Dom.node := [Dom.text html].

End Example.

(** * Properties *)

(** ** Lists and form data *)

Lemma filter_index_length {A} (keep : nat -> bool) (i : nat) (xs : list A) :
  length (Js.filter_index keep i xs) <= length xs.
Proof.
  revert i; induction xs as [|x xs IH]; intros i; simpl; [lia|].
  specialize (IH (S i)). destruct (keep i); simpl; lia.
Qed.

Lemma getAll_app key (a b : FormData.t) :
  FormData.getAll key (a ++ b) = FormData.getAll key a ++ FormData.getAll key b.
Proof.
  unfold FormData.getAll. rewrite List.filter_app, map_app. reflexivity.
Qed.

Lemma getAll_photos_entries key (l : list File.t) :
  FormData.getAll key (map (fun p => ("photos", FormData.file p)) l) =
  if String.eqb "photos" key then map FormData.file l else [].
Proof.
  unfold FormData.getAll.
  induction l as [|p l IH]; cbn [map List.filter fst snd].
  - destruct (String.eqb "photos" key); reflexivity.
  - destruct (String.eqb "photos" key); cbn [map snd]; congruence.
Qed.

Lemma getAll_field key k v :
  FormData.getAll key (Spec.field k v) =
  if String.eqb k key && negb (String.eqb v "") then [FormData.text v] else [].
Proof.
  unfold Spec.field, FormData.getAll.
  destruct (String.eqb v ""); cbn [map List.filter fst snd negb].
  - rewrite andb_false_r. reflexivity.
  - rewrite andb_true_r. destruct (String.eqb k key); reflexivity.
Qed.

Lemma append_photos_fold (l : list File.t) (fd : FormData.t) :
  fold_left (fun fd photo => FormData.append fd "photos" (FormData.file photo)) l fd
  = fd ++ map (fun p => ("photos", FormData.file p)) l.
Proof.
  revert fd; induction l as [|p l IH]; intros fd; simpl.
  - rewrite app_nil_r. reflexivity.
  - rewrite IH. unfold FormData.append. rewrite <- app_assoc. reflexivity.
Qed.

Lemma append_if_truthy_field fd key v :
  UploadSection.append_if_truthy fd key v = fd ++ Spec.field key v.
Proof.
  unfold UploadSection.append_if_truthy, Spec.field, FormData.append; simpl.
  destruct (String.eqb v ""); simpl; [rewrite app_nil_r|]; reflexivity.
Qed.

(** The request body, entry by entry. *)
Lemma buildFormData_shape (st : UploadSection.state) :
  UploadSection.buildFormData st =
  [("accident_report",
    match UploadSection.mainReport st with
    | Some f => FormData.file f
    | None => FormData.text "null"
    end)]
  ++ map (fun p => ("photos", FormData.file p)) (UploadSection.additionalPhotos st)
  ++ Spec.field "client_name" (UploadSection.name (UploadSection.clientInfo st))
  ++ Spec.field "client_email" (UploadSection.email (UploadSection.clientInfo st))
  ++ Spec.field "additional_notes" (UploadSection.notes (UploadSection.clientInfo st)).
Proof.
  unfold UploadSection.buildFormData.
  rewrite !append_if_truthy_field, append_photos_fold.
  unfold FormData.append, FormData.empty. simpl.
  rewrite <- !app_assoc. reflexivity.
Qed.

Lemma buildFormData_photos (st : UploadSection.state) :
  FormData.getAll "photos" (UploadSection.buildFormData st)
  = map FormData.file (UploadSection.additionalPhotos st).
Proof.
  rewrite buildFormData_shape, !getAll_app, getAll_photos_entries, !getAll_field.
  simpl. rewrite app_nil_r. reflexivity.
Qed.

Lemma buildFormData_report (st : UploadSection.state) f :
  UploadSection.mainReport st = Some f ->
  FormData.getAll "accident_report" (UploadSection.buildFormData st) = [FormData.file f].
Proof.
  intros H.
  rewrite buildFormData_shape, !getAll_app, getAll_photos_entries, !getAll_field, H.
  reflexivity.
Qed.

Lemma handleSubmit_missing (st : UploadSection.state) :
  UploadSection.mainReport st = None ->
  UploadSection.handleSubmit st =
  ({| UploadSection.mainReport := None;
      UploadSection.additionalPhotos := UploadSection.additionalPhotos st;
      UploadSection.clientInfo := UploadSection.clientInfo st;
      UploadSection.errors := {[ "report" := Js.str UploadSection.report_required ]} |},
   []).
Proof.
  intros H. unfold UploadSection.handleSubmit, UploadSection.validateForm.
  rewrite H. reflexivity.
Qed.

Lemma handleSubmit_present (st : UploadSection.state) f :
  UploadSection.mainReport st = Some f ->
  UploadSection.handleSubmit st =
  ({| UploadSection.mainReport := Some f;
      UploadSection.additionalPhotos := UploadSection.additionalPhotos st;
      UploadSection.clientInfo := UploadSection.clientInfo st;
      UploadSection.errors := ∅ |},
   [UploadSection.buildFormData st]).
Proof.
  intros H. unfold UploadSection.handleSubmit, UploadSection.validateForm.
  rewrite H. reflexivity.
Qed.

(** ** The dropzones *)

Lemma acceptedFiles_accepted (o : Dropzone.options) (files : list File.t) (f : File.t) :
  In f (Dropzone.acceptedFiles o files) -> Dropzone.accepted o f = true.
Proof.
  unfold Dropzone.acceptedFiles.
  destruct (negb (Dropzone.multiple o) && _); simpl; [tauto|].
  intros H. apply filter_In in H. tauto.
Qed.

(** The report dropzone, pattern by pattern. *)
Lemma report_accepted_unfold (f : File.t) :
  Dropzone.accepted UploadSection.reportOptions f =
  (String.eqb (File.type f) "application/x-moz-file"
   || (String.eqb (Js.toLowerCase (File.type f)) "application/pdf"
   || (Js.endsWith (Js.toLowerCase (File.name f)) ".pdf"
   || (String.eqb (Js.before_slash (Js.toLowerCase (File.type f))) "image"
   || existsb (Js.endsWith (Js.toLowerCase (File.name f))) UploadSection.image_extensions))))
  && negb (10485760 <? File.size f)%N.
Proof. reflexivity. Qed.

(** The photos dropzone, pattern by pattern. *)
Lemma photo_accepted_unfold (f : File.t) :
  Dropzone.accepted UploadSection.photosOptions f =
  (String.eqb (File.type f) "application/x-moz-file"
   || (String.eqb (Js.before_slash (Js.toLowerCase (File.type f))) "image"
   || existsb (Js.endsWith (Js.toLowerCase (File.name f))) UploadSection.image_extensions))
  && negb (10485760 <? File.size f)%N.
Proof. reflexivity. Qed.

Lemma size_check (n : N) : negb (10485760 <? n)%N = true <-> (n <= 10485760)%N.
Proof.
  rewrite negb_true_iff, N.ltb_ge. reflexivity.
Qed.

(** ** The invariant of the page *)

Lemma step_photos (st : UploadSection.state) (ev : UploadSection.event) :
  length (UploadSection.additionalPhotos st) <= 5 ->
  length (UploadSection.additionalPhotos (UploadSection.step st ev)) <= 5.
Proof.
  intros H. destruct ev; simpl; try assumption.
  - unfold UploadSection.onDropReport.
    destruct (Dropzone.acceptedFiles _ _); assumption.
  - rewrite length_take. lia.
  - etransitivity; [apply filter_index_length | assumption].
Qed.

Lemma step_report (st : UploadSection.state) (ev : UploadSection.event) (f : File.t) :
  (forall g, UploadSection.mainReport st = Some g ->
             Dropzone.accepted UploadSection.reportOptions g = true) ->
  UploadSection.mainReport (UploadSection.step st ev) = Some f ->
  Dropzone.accepted UploadSection.reportOptions f = true.
Proof.
  intros Hst. destruct ev; simpl; try apply Hst; try discriminate.
  unfold UploadSection.onDropReport.
  destruct (Dropzone.acceptedFiles _ _) as [|g rest] eqn:E; [apply Hst|].
  simpl. intros [= <-].
  apply (acceptedFiles_accepted UploadSection.reportOptions files).
  rewrite E. left. reflexivity.
Qed.

Lemma initial_ok (sent : list Axios.request) (a : App.state) :
  Forall Spec.request_ok sent ->
  Spec.page_ok {| App.app := a; App.form := UploadSection.initial; App.sent := sent |}.
Proof.
  intros H. repeat split; simpl; [lia | discriminate | assumption].
Qed.

Lemma submit_ok (e : App.env) (server : Axios.request -> Axios.reply) (p : App.page) :
  Spec.page_ok p -> Spec.page_ok (App.submit e server p).
Proof.
  intros (Hph & Hrep & Hsent). unfold App.submit.
  destruct (UploadSection.mainReport (App.form p)) as [f|] eqn:E.
  - rewrite (handleSubmit_present _ f E).
    unfold App.handleAnalyze. apply initial_ok.
    apply Forall_app. split; [assumption|].
    constructor; [|constructor]. split; simpl.
    + rewrite buildFormData_photos, length_map. assumption.
    + exists f. split; [apply buildFormData_report; assumption | apply Hrep; reflexivity].
  - rewrite (handleSubmit_missing _ E). repeat split; simpl; try assumption.
Qed.

Lemma act_ok (e : App.env) (server : Axios.request -> Axios.reply)
    (p : App.page) (a : App.action) :
  Spec.page_ok p -> Spec.page_ok (App.act e server p a).
Proof.
  intros Hp. unfold App.act.
  destruct (App.main_screen (App.app p)), a; try assumption.
  - destruct Hp as (Hph & Hrep & Hsent). repeat split; simpl.
    + apply step_photos; assumption.
    + intros f. apply step_report; assumption.
    + assumption.
  - destruct (UploadSection.submit_enabled _); [apply submit_ok|]; assumption.
  - apply initial_ok. apply Hp.
Qed.

Lemma reachable_ok (e : App.env) (p : App.page) :
  App.reachable e p -> Spec.page_ok p.
Proof.
  induction 1 as [|server p a _ IH].
  - apply initial_ok. constructor.
  - apply act_ok; assumption.
Qed.

Lemma filled_reachable : App.reachable Sample.env Sample.filled.
Proof. repeat apply App.reachable_act. apply App.reachable_start. Qed.

Lemma submitted_reachable : App.reachable Sample.env Sample.submitted.
Proof. apply App.reachable_act. apply filled_reachable. Qed.

(** ** Submission without a primary document *)

(** C1: when no primary document is selected, the submit handler fails on
    the client with the error "Kaza Tespit Tutanağı is required" and does
    not call [onAnalyze]; wired to [handleAnalyze], it leaves the
    application state and the list of requests sent as they were, so no
    POST to /api/analyze is issued. *)
Theorem missing_report_fails_without_request
    (e : App.env) (server : Axios.request -> Axios.reply) (p : App.page) :
  UploadSection.mainReport (App.form p) = None ->
  fst (UploadSection.validateForm (App.form p)) = false /\
  snd (UploadSection.handleSubmit (App.form p)) = [] /\
  UploadSection.errors (fst (UploadSection.handleSubmit (App.form p))) !! "report"
    = Some (Js.str "Kaza Tespit Tutanağı is required") /\
  App.sent (App.submit e server p) = App.sent p /\
  App.app (App.submit e server p) = App.app p /\
  App.sent (App.act e server p App.ClickSubmit) = App.sent p.
Proof.
  intros H.
  assert (Hs := handleSubmit_missing _ H).
  split; [unfold UploadSection.validateForm; rewrite H; reflexivity|].
  split; [rewrite Hs; reflexivity|].
  split; [rewrite Hs; reflexivity|].
  unfold App.act, App.submit, UploadSection.submit_enabled.
  rewrite Hs, H.
  repeat split. destruct (App.main_screen _); reflexivity.
Qed.

Lemma missing_report_fails_without_request_witness :
  UploadSection.mainReport (App.form App.start) = None /\
  App.sent (App.submit Sample.env Sample.good_server App.start) = [].
Proof.
  split; [reflexivity|].
  apply (missing_report_fails_without_request Sample.env Sample.good_server App.start).
  reflexivity.
Defined.

(** ** The bound on the photos *)

(** C2: on every reachable page the photos list of the upload form holds
    at most 5 entries; a drop of accepted photos leaves the first 5
    elements of the old list followed by the new files; removing a photo
    keeps the bound; and every request sent carries at most 5 photos. *)
Theorem photos_at_most_five (e : App.env) (p : App.page) :
  App.reachable e p ->
  length (UploadSection.additionalPhotos (App.form p)) <= 5 /\
  (forall accepted,
     UploadSection.additionalPhotos (UploadSection.onDropPhotos accepted (App.form p))
     = take 5 (UploadSection.additionalPhotos (App.form p) ++ accepted)) /\
  (forall accepted,
     length (UploadSection.additionalPhotos
               (UploadSection.onDropPhotos accepted (App.form p))) <= 5) /\
  (forall index,
     length (UploadSection.additionalPhotos
               (UploadSection.removePhoto index (App.form p))) <= 5) /\
  Forall (fun req => length (FormData.getAll "photos" (Axios.body req)) <= 5) (App.sent p).
Proof.
  intros Hr. destruct (reachable_ok e p Hr) as (Hph & _ & Hsent).
  split; [assumption|].
  split; [reflexivity|].
  split; [intros accepted; simpl; rewrite length_take; lia|].
  split.
  - intros index. simpl.
    etransitivity; [apply filter_index_length | assumption].
  - eapply Forall_impl; [exact Hsent|]. intros req [H _]. exact H.
Qed.

Lemma photos_at_most_five_witness :
  App.reachable Sample.env Sample.submitted /\
  Forall (fun req => length (FormData.getAll "photos" (Axios.body req)) <= 5)
    (App.sent Sample.submitted).
Proof.
  split; [apply submitted_reachable|].
  apply (photos_at_most_five Sample.env Sample.submitted submitted_reachable).
Defined.

(** ** The primary document *)

(** C3, as stated, fails: the report dropzone accepts [image/*], so a WebP
    image of 4 KB, whose media type is not on the allow-list, is accepted,
    becomes the primary document and is sent. *)
Lemma webp_becomes_primary_document :
  Dropzone.accepted UploadSection.reportOptions Sample.webp = true /\
  Spec.media_type_allowed Sample.webp = false /\
  (let dropped :=
     App.act Sample.env Sample.good_server App.start
       (App.OnForm (UploadSection.DropReport [Sample.webp])) in
   UploadSection.mainReport (App.form dropped) = Some Sample.webp /\
   map (fun req => FormData.getAll "accident_report" (Axios.body req))
     (App.sent (App.act Sample.env Sample.good_server dropped App.ClickSubmit))
   = [[FormData.file Sample.webp]]) /\
  ~ (forall f, Dropzone.accepted UploadSection.reportOptions f = true ->
               Spec.media_type_allowed f = true /\ (File.size f <= Spec.max_bytes)%N).
Proof.
  split; [reflexivity|]. split; [reflexivity|]. split; [split; reflexivity|].
  intros H. destruct (H Sample.webp eq_refl) as [Hm _]. discriminate Hm.
Qed.

(** C3, amended: the report dropzone accepts a file exactly when its size
    is at most 10485760 bytes and its MIME type is [application/pdf] or an
    [image/...] type, or its name ends in .pdf, .png, .jpg, .jpeg, .gif or
    .bmp (letter case ignored), or its type is the placeholder
    [application/x-moz-file]; on every reachable page the selected primary
    document was accepted in this sense, and so was the primary document
    of every request sent. *)
Theorem report_intake_accepts (e : App.env) (p : App.page) (f : File.t) :
  (Dropzone.accepted UploadSection.reportOptions f = true <->
   (File.size f <= 10485760)%N /\
   (File.type f = "application/x-moz-file" \/
    Js.toLowerCase (File.type f) = "application/pdf" \/
    Js.before_slash (Js.toLowerCase (File.type f)) = "image" \/
    exists ext, In ext Spec.allowed_extensions /\
                Js.endsWith (Js.toLowerCase (File.name f)) ext = true)) /\
  (App.reachable e p ->
   (UploadSection.mainReport (App.form p) = Some f ->
    Dropzone.accepted UploadSection.reportOptions f = true) /\
   Forall (fun req =>
             exists g, FormData.getAll "accident_report" (Axios.body req) = [FormData.file g]
                       /\ Dropzone.accepted UploadSection.reportOptions g = true)
     (App.sent p)).
Proof.
  split.
  - rewrite report_accepted_unfold, andb_true_iff, size_check, !orb_true_iff,
      !String.eqb_eq, existsb_exists.
    split.
    + intros [Ht Hs]. split; [assumption|].
      destruct Ht as [Ht|[Ht|[Ht|[Ht|(ext & Hin & Hext)]]]]; auto.
      * do 3 right. exists ".pdf". split; [left; reflexivity | assumption].
      * do 3 right. exists ext. split; [right; assumption | assumption].
    + intros [Hs Ht]. split; [|assumption].
      destruct Ht as [Ht|[Ht|[Ht|(ext & Hin & Hext)]]]; auto.
      destruct Hin as [<-|Hin]; [auto|].
      do 4 right. exists ext. split; assumption.
  - intros Hr. destruct (reachable_ok e p Hr) as (_ & Hrep & Hsent).
    split; [apply Hrep|].
    eapply Forall_impl; [exact Hsent|]. intros req [_ H]. exact H.
Qed.

Lemma report_intake_accepts_witness :
  App.reachable Sample.env Sample.submitted /\
  Forall (fun req =>
            exists g, FormData.getAll "accident_report" (Axios.body req) = [FormData.file g]
                      /\ Dropzone.accepted UploadSection.reportOptions g = true)
    (App.sent Sample.submitted).
Proof.
  split; [repeat apply App.reachable_act; apply App.reachable_start|].
  apply (report_intake_accepts Sample.env Sample.submitted Sample.pdf).
  repeat apply App.reachable_act. apply App.reachable_start.
Defined.

(** ** Photos and the allow-list *)




(** ** Metadata *)

(** C5, as stated, fails: a client name that is one space is truthy, so it
    is included in the request, and it is empty after trimming. *)
Lemma blank_name_is_sent :
  exists fd,
    snd (UploadSection.handleSubmit Sample.blank_name) = [fd] /\
    FormData.getAll "client_name" fd = [FormData.text " "] /\
    Js.trim " " = "".
Proof.
  eexists. split; [reflexivity|]. split; reflexivity.
Qed.

(** C5, amended: for each metadata field (client name, client email,
    additional notes) the request holds the value as typed, untrimmed,
    exactly when that value is not the empty string; a field left empty is
    omitted from the request. *)
Theorem metadata_sent_iff_nonempty
    (st : UploadSection.state) (fd : FormData.t) (key v : string) :
  In fd (snd (UploadSection.handleSubmit st)) ->
  In (key, v) (Spec.metadata (UploadSection.clientInfo st)) ->
  FormData.getAll key fd = (if String.eqb v "" then [] else [FormData.text v]) /\
  (forall w, In (FormData.text w) (FormData.getAll key fd) -> w = v /\ w <> "") /\
  (v = "" -> FormData.has key fd = false).
Proof.
  intros Hfd Hkey.
  assert (Hget : FormData.getAll key fd
                 = if String.eqb v "" then [] else [FormData.text v]).
  { destruct (UploadSection.mainReport st) as [f|] eqn:E.
    - rewrite (handleSubmit_present _ f E) in Hfd.
      destruct Hfd as [<-|[]].
      rewrite buildFormData_shape, !getAll_app, getAll_photos_entries, !getAll_field.
      destruct Hkey as [[= <- <-]|[[= <- <-]|[[= <- <-]|[]]]];
        cbn [String.eqb Ascii.eqb Bool.eqb andb app];
        repeat match goal with
               | |- context [String.eqb ?s ""] => destruct (String.eqb s "")
               end; reflexivity.
    - rewrite (handleSubmit_missing _ E) in Hfd. destruct Hfd. }
  split; [exact Hget|]. split.
  - intros w Hw. rewrite Hget in Hw.
    destruct (String.eqb v "") eqn:Ev; [destruct Hw|].
    destruct Hw as [[= <-]|[]]. split; [reflexivity|].
    intros ->. discriminate Ev.
  - intros ->. simpl in Hget.
    unfold FormData.getAll in Hget. unfold FormData.has.
    destruct (existsb _ fd) eqn:Ex; [|reflexivity].
    apply existsb_exists in Ex. destruct Ex as (x & Hx & Hk).
    assert (Hin : In x (List.filter (fun e => String.eqb (fst e) key) fd))
      by (apply filter_In; split; assumption).
    apply (in_map snd) in Hin. rewrite Hget in Hin. destruct Hin.
Qed.

Lemma metadata_sent_iff_nonempty_witness :
  In (UploadSection.buildFormData Sample.blank_name)
     (snd (UploadSection.handleSubmit Sample.blank_name)) /\
  In ("additional_notes", "Other driver ran the red light")
     (Spec.metadata (UploadSection.clientInfo Sample.blank_name)) /\
  FormData.getAll "additional_notes" (UploadSection.buildFormData Sample.blank_name)
  = [FormData.text "Other driver ran the red light"].
Proof.
  split; [left; reflexivity|].
  split; [right; right; left; reflexivity|].
  apply (metadata_sent_iff_nonempty Sample.blank_name
           (UploadSection.buildFormData Sample.blank_name)
           "additional_notes" "Other driver ran the red light").
  - left; reflexivity.
  - right; right; left; reflexivity.
Defined.

(** ** Failed analyze calls *)

Lemma post_timeout (req : Axios.request) (r : Axios.reply) (l : N) :
  Axios.timeout req = 120000%N ->
  Spec.latency r = Some l -> (120000 < l)%N ->
  Axios.post req r = Axios.rejected {| Axios.response := None |}.
Proof.
  intros Ht Hl Hgt.
  assert (Hto : Axios.timed_out (Axios.timeout req) l = true).
  { unfold Axios.timed_out. rewrite Ht. apply andb_true_iff. split.
    - reflexivity.
    - apply N.ltb_lt. assumption. }
  destruct r; simpl in *; try discriminate;
    injection Hl as ->; rewrite Hto; reflexivity.
Qed.

Lemma or_truthy (a : Json.t) (s : string) :
  s <> "" -> Json.truthy (Json.or a (Js.str s)) = true.
Proof.
  intros Hs. unfold Json.or. destruct (Json.truthy a) eqn:E; [assumption|].
  simpl. apply negb_true_iff. apply String.eqb_neq. assumption.
Qed.

(** What every failed analyze call does: the error state becomes the
    detail sent by the server when it is truthy and the fixed fallback text
    otherwise; the step is back to [upload]; the stored analysis result is
    the one from before the call.  A detail that is a non-empty string is
    shown in the one paragraph of the banner above the upload form, and so
    is the fallback text when there is no detail; a detail that React
    cannot print makes the render throw.  A call whose answer takes longer
    than 120000 ms is such a failure, with the fallback text. *)
Lemma failed_analyze_stores_error
    (e : App.env) (server : Axios.request -> Axios.reply)
    (formData : FormData.t) (st : App.state) :
  let req := App.analyze_request e formData in
  let st' := fst (App.handleAnalyze e server formData st) in
  let banner (kids : list Dom.node) :=
    Dom.elem "div" "bg-red-50 border-l-4 border-red-500 p-4 mb-6 rounded-r-lg"
      [Dom.elem "p" "text-red-800" kids] in
  (forall err,
     Axios.post req (server req) = Axios.rejected err ->
     App.error st'
     = Json.or (Axios.response_data_detail err) (Js.str App.fallback_message) /\
     Json.truthy (App.error st') = true /\
     App.currentStep st' = App.upload /\
     App.main_screen st' = App.UploadScreen /\
     App.analysisResult st' = App.analysisResult st /\
     (forall s, Axios.response_data_detail err = Js.str s -> s <> "" ->
        App.error st' = Js.str s /\
        App.render st' = Some (banner [Dom.text s], App.UploadScreen)) /\
     (Json.truthy (Axios.response_data_detail err) = false ->
        App.error st' = Js.str App.fallback_message /\
        App.render st'
        = Some (banner [Dom.text App.fallback_message], App.UploadScreen)) /\
     (Json.children (App.error st') = None ->
        App.errorBanner st' = None /\ App.render st' = None)) /\
  (forall l,
     Spec.latency (server req) = Some l -> (120000 < l)%N ->
     Axios.post req (server req) = Axios.rejected {| Axios.response := None |} /\
     App.error st' = Js.str App.fallback_message /\
     App.render st'
     = Some (banner [Dom.text App.fallback_message], App.UploadScreen) /\
     App.currentStep st' = App.upload /\
     App.analysisResult st' = App.analysisResult st).
Proof.
  intros req st' banner. subst st'. unfold App.handleAnalyze. fold req. cbn [fst].
  split.
  - intros err Herr. rewrite Herr.
    cbn [App.handleAnalyze_settle App.handleAnalyze_begin App.setCurrentStep
         App.setError App.error App.currentStep App.analysisResult].
    assert (Ht : Json.truthy (Json.or (Axios.response_data_detail err)
                                (Js.str App.fallback_message)) = true)
      by (apply or_truthy; discriminate).
    split; [reflexivity|]. split; [exact Ht|].
    split; [reflexivity|]. split; [reflexivity|]. split; [reflexivity|].
    split; [|split].
    + intros s Hs Hne. rewrite Hs. apply String.eqb_neq in Hne.
      unfold Json.or. cbn [Json.truthy Js.truthy]. rewrite Hne. cbn [negb].
      split; [reflexivity|].
      unfold App.render, App.errorBanner, Dom.and_jsx.
      cbn [App.error App.setCurrentStep App.setError Js.truthy].
      rewrite Hne. reflexivity.
    + intros Hf. unfold Json.or. rewrite Hf. split; reflexivity.
    + intros Hc. unfold App.render, App.errorBanner.
      cbn [App.error App.setCurrentStep App.setError].
      destruct (Json.or _ _) as [v|items|fields]; [discriminate Hc| |];
        rewrite Hc; split; reflexivity.
  - intros l Hl Hgt.
    rewrite (post_timeout req (server req) l eq_refl Hl Hgt).
    repeat split.
Qed.

(** C6: the server refuses the request with a validation error, whose
    [detail] is a list of objects.  [handleAnalyze] stores the list as the
    error and goes back to the [upload] step, but rendering the error
    throws: neither a message nor the upload form is shown, where the
    claim asks for one readable message above the upload form. *)
Theorem validation_detail_breaks_render :
  let st' := fst (App.handleAnalyze Sample.env Sample.validation_server []
                    App.initial) in
  Axios.post (App.analyze_request Sample.env [])
    (Sample.validation_server (App.analyze_request Sample.env []))
  = Axios.rejected
      {| Axios.response :=
           Some {| Axios.status := 422;
                   Axios.data := Some {| Axios.detail := Sample.validation_detail |} |} |} /\
  App.error st' = Sample.validation_detail /\
  App.currentStep st' = App.upload /\
  App.analysisResult st' = None /\
  App.errorBanner st' = None /\
  App.render st' = None /\
  App.render (App.app (App.act Sample.env Sample.validation_server Sample.filled
                         App.ClickSubmit)) = None.
Proof. repeat split. Qed.

(** ** Downloads *)

(** The HTML download hands over the briefing of the result, under the
    name built from the session identifier. *)
Lemma downloadBriefing_html (result : Api.Result) :
  AnalysisResults.saved (AnalysisResults.downloadBriefing "html" result)
  = [("lexintake_briefing_" +:+ Api.session_id result +:+ ".html",
      Api.briefing_html result)].
Proof. reflexivity. Qed.

(** The PDF request hands over nothing, for any result. *)
Lemma downloadBriefing_pdf (result : Api.Result) :
  AnalysisResults.downloadBriefing "pdf" result
  = [AnalysisResults.alert "PDF download will be implemented with backend integration"]
  /\ AnalysisResults.saved (AnalysisResults.downloadBriefing "pdf" result) = [].
Proof. split; reflexivity. Qed.

(** C7: for the sample result with session [abc123], the HTML download
    saves exactly [briefing_html] as [lexintake_briefing_abc123.html]; the
    PDF request only raises an alert and saves no bytes, where the claim
    asks for the PDF of the session. *)
Theorem pdf_request_saves_nothing :
  AnalysisResults.downloadBriefing "html" Sample.result
  = [AnalysisResults.save_as "lexintake_briefing_abc123.html"
       {| AnalysisResults.content := "<html><body>Briefing</body></html>";
          AnalysisResults.blob_type := "text/html" |}] /\
  AnalysisResults.downloadBriefing "pdf" Sample.result
  = [AnalysisResults.alert "PDF download will be implemented with backend integration"] /\
  AnalysisResults.saved (AnalysisResults.downloadBriefing "pdf" Sample.result) = [].
Proof. repeat split. Qed.

(** ** The results view *)

Lemma nodes_self (n : Dom.node) : In n (Dom.nodes n).
Proof. destruct n; left; reflexivity. Qed.

Lemma nodes_child (x c : Dom.node) (tag cl : string) (kids : list Dom.node) :
  In c kids -> In x (Dom.nodes c) -> In x (Dom.nodes (Dom.elem tag cl kids)).
Proof.
  intros Hc Hx. simpl. right. apply in_flat_map. exists c. split; assumption.
Qed.

Lemma by_class_elem (c tag cl : string) (kids : list Dom.node) :
  Dom.by_class c (Dom.elem tag cl kids)
  = (if String.eqb cl c then [Dom.elem tag cl kids] else [])
    ++ flat_map (Dom.by_class c) kids.
Proof.
  unfold Dom.by_class. cbn [Dom.nodes List.filter Dom.has_class].
  assert (H : List.filter (Dom.has_class c) (flat_map Dom.nodes kids)
              = flat_map (fun n => List.filter (Dom.has_class c) (Dom.nodes n)) kids).
  { induction kids as [|k kids IH]; [reflexivity|].
    cbn [flat_map]. rewrite List.filter_app, IH. reflexivity. }
  rewrite H. destruct (String.eqb cl c); reflexivity.
Qed.

Lemma by_class_photoCard (photo : Api.PhotoAnalysis) :
  Dom.by_class Spec.photo_card_class (AnalysisResults.photoCard photo)
  = [AnalysisResults.photoCard photo].
Proof.
  unfold AnalysisResults.photoCard.
  destruct (Api.photo_id photo), (Api.description photo); reflexivity.
Qed.

Lemma by_class_photoCards (l : list Api.PhotoAnalysis) :
  flat_map (Dom.by_class Spec.photo_card_class) (map AnalysisResults.photoCard l)
  = map AnalysisResults.photoCard l.
Proof.
  induction l as [|p l IH]; [reflexivity|].
  cbn [map flat_map]. rewrite by_class_photoCard, IH. reflexivity.
Qed.



(** C9: when [extraction_confidence] is absent or 0 the data quality
    indicator renders no element at all: neither the confidence card nor
    the missing information line, whatever [missing_information] holds;
    an element is rendered only for a confidence other than 0, and then it
    is the confidence card. *)
Theorem no_confidence_no_indicator (result : Api.Result) :
  let c := Api.extraction_confidence (Api.analysis result) in
  let view := AnalysisResults.dataQualityIndicator result in
  ((c = None \/ exists q, c = Some q /\ (q == 0)%Q) ->
   Dom.by_class "card" view = [] /\
   Dom.by_class AnalysisResults.missing_class view = [] /\
   List.filter Dom.is_elem (Dom.nodes view) = []) /\
  (List.filter Dom.is_elem (Dom.nodes view) <> [] ->
   exists q, c = Some q /\ ~ (q == 0)%Q /\
             view = AnalysisResults.confidenceCard q result).
Proof.
  intros c view. subst c view. unfold AnalysisResults.dataQualityIndicator.
  destruct (Api.extraction_confidence (Api.analysis result)) as [q|].
  - unfold Dom.and_jsx. cbn [Js.truthy].
    destruct (Qeq_bool q 0) eqn:E; cbn [negb Dom.child].
    + split; [intros _; repeat split|].
      intros H. exfalso. apply H. reflexivity.
    + split.
      * intros [H|(q' & [= <-] & Hq)]; [discriminate|].
        apply Qeq_bool_iff in Hq. congruence.
      * intros _. exists q. repeat split.
        intros Hq. apply Qeq_bool_iff in Hq. congruence.
  - split; [intros _; repeat split|].
    intros H. exfalso. apply H. reflexivity.
Qed.

Lemma no_confidence_no_indicator_witness :
  (exists q, Api.extraction_confidence (Api.analysis Sample.result) = Some q /\ (q == 0)%Q) /\
  Api.missing_information (Api.analysis Sample.result) = Some ["party_b.insurance_company"] /\
  Dom.by_class AnalysisResults.missing_class
    (AnalysisResults.dataQualityIndicator Sample.result) = [].
Proof.
  split; [exists 0%Q; split; reflexivity|]. split; [reflexivity|].
  apply (no_confidence_no_indicator Sample.result).
  right. exists 0%Q. split; reflexivity.
Defined.

(** C10: when [party_a_fault_percentage] is not [null] the summary tab
    renders the fault distribution: its caption and the two boxes, "Party
    A" with the percentage of party A before the percent sign, then "Party
    B" with the percentage of party B, which is printed unchecked.  A
    number is printed as it is; for [null] the box of party B is rendered
    with nothing before the percent sign. *)
Theorem fault_boxes_need_only_party_a (result : Api.Result) :
  let fa := Api.fault_assessment (Api.analysis result) in
  let box (party : string) (printed : Dom.node) :=
    Dom.elem "div" "flex-1"
      [Dom.elem "div" "bg-white rounded-lg p-3"
         [Dom.elem "p" "text-sm text-gray-600" [Dom.text party];
          Dom.elem "p" "text-2xl font-bold text-primary" [printed; Dom.text "%"]]] in
  let printed (v : Js.value) :=
    match v with
    | Js.str s => Dom.text s
    | Js.number q => Dom.num q
    | Js.undefined | Js.null | Js.boolean _ => Dom.nothing
    end in
  Api.party_a_fault_percentage fa <> Js.null ->
  AnalysisResults.faultDistribution result =
    Dom.elem "div" "mt-3"
      [Dom.elem "p" "text-sm font-medium mb-2" [Dom.text "Estimated Fault Distribution:"];
       Dom.elem "div" "flex space-x-4"
         [box "Party A" (printed (Api.party_a_fault_percentage fa));
          box "Party B" (printed (Api.party_b_fault_percentage fa))]] /\
  In (AnalysisResults.faultDistribution result)
     (Dom.nodes (AnalysisResults.summaryTab result)) /\
  In (box "Party A" (printed (Api.party_a_fault_percentage fa)))
     (Dom.nodes (AnalysisResults.summaryTab result)) /\
  In (box "Party B" (printed (Api.party_b_fault_percentage fa)))
     (Dom.nodes (AnalysisResults.summaryTab result)) /\
  (forall a, Api.party_a_fault_percentage fa = Js.number a ->
     In (box "Party A" (Dom.num a)) (Dom.nodes (AnalysisResults.summaryTab result))) /\
  (forall b, Api.party_b_fault_percentage fa = Js.number b ->
     In (box "Party B" (Dom.num b)) (Dom.nodes (AnalysisResults.summaryTab result))) /\
  (Api.party_b_fault_percentage fa = Js.null ->
   In (box "Party B" Dom.nothing) (Dom.nodes (AnalysisResults.summaryTab result))).
Proof.
  intros fa box printed Ha.
  assert (Hd : AnalysisResults.faultDistribution result =
    Dom.elem "div" "mt-3"
      [Dom.elem "p" "text-sm font-medium mb-2" [Dom.text "Estimated Fault Distribution:"];
       Dom.elem "div" "flex space-x-4"
         [box "Party A" (printed (Api.party_a_fault_percentage fa));
          box "Party B" (printed (Api.party_b_fault_percentage fa))]]).
  { unfold AnalysisResults.faultDistribution. fold fa.
    destruct (Api.party_a_fault_percentage fa); try reflexivity. contradiction. }
  assert (Hdin : In (AnalysisResults.faultDistribution result)
                   (Dom.nodes (AnalysisResults.summaryTab result))).
  { unfold AnalysisResults.summaryTab.
    eapply nodes_child; [right; right; left; reflexivity|].
    unfold AnalysisResults.faultAssessment.
    eapply nodes_child; [right; right; left; reflexivity | apply nodes_self]. }
  assert (Hin : forall x,
            In x [box "Party A" (printed (Api.party_a_fault_percentage fa));
                  box "Party B" (printed (Api.party_b_fault_percentage fa))] ->
            In x (Dom.nodes (AnalysisResults.summaryTab result))).
  { intros x Hx. unfold AnalysisResults.summaryTab.
    eapply nodes_child; [right; right; left; reflexivity|].
    unfold AnalysisResults.faultAssessment.
    eapply nodes_child; [right; right; left; reflexivity|].
    rewrite Hd.
    eapply nodes_child; [right; left; reflexivity|].
    eapply nodes_child; [exact Hx | apply nodes_self]. }
  split; [exact Hd|]. split; [exact Hdin|].
  split; [apply Hin; left; reflexivity|].
  split; [apply Hin; right; left; reflexivity|].
  split; [|split].
  - intros a Hnum. pose proof (Hin _ (or_introl eq_refl)) as H.
    rewrite Hnum in H. exact H.
  - intros b Hnum. pose proof (Hin _ (or_intror (or_introl eq_refl))) as H.
    rewrite Hnum in H. exact H.
  - intros Hb. pose proof (Hin _ (or_intror (or_introl eq_refl))) as H.
    rewrite Hb in H. exact H.
Qed.

Lemma fault_boxes_need_only_party_a_witness :
  Api.party_a_fault_percentage (Api.fault_assessment (Api.analysis Sample.result))
  = Js.number 30 /\
  Api.party_a_fault_percentage (Api.fault_assessment (Api.analysis Sample.result)) <> Js.null /\
  Api.party_b_fault_percentage (Api.fault_assessment (Api.analysis Sample.result)) = Js.null /\
  In (Dom.elem "div" "flex-1"
        [Dom.elem "div" "bg-white rounded-lg p-3"
           [Dom.elem "p" "text-sm text-gray-600" [Dom.text "Party A"];
            Dom.elem "p" "text-2xl font-bold text-primary"
              [Dom.num 30; Dom.text "%"]]])
     (Dom.nodes (AnalysisResults.summaryTab Sample.result)) /\
  In (Dom.elem "div" "flex-1"
        [Dom.elem "div" "bg-white rounded-lg p-3"
           [Dom.elem "p" "text-sm text-gray-600" [Dom.text "Party B"];
            Dom.elem "p" "text-2xl font-bold text-primary"
              [Dom.nothing; Dom.text "%"]]])
     (Dom.nodes (AnalysisResults.summaryTab Sample.result)).
Proof.
  split; [reflexivity|]. split; [discriminate|]. split; [reflexivity|].
  split.
  - apply (fault_boxes_need_only_party_a Sample.result); [discriminate | reflexivity].
  - apply (fault_boxes_need_only_party_a Sample.result); [discriminate | reflexivity].
Defined.

(** * More of the components *)

(** ** The handlers of the upload form *)

Lemma filter_index_all {A} (keep : nat -> bool) (m : nat) (xs : list A) :
  (forall j, m <= j -> keep j = true) -> Js.filter_index keep m xs = xs.
Proof.
  revert m; induction xs as [|x xs IH]; intros m Hk; [reflexivity|].
  cbn [Js.filter_index]. rewrite (Hk m) by lia. f_equal.
  apply IH. intros j Hj. apply Hk. lia.
Qed.

Lemma filter_index_delete {A} (xs : list A) (k i : nat) :
  Js.filter_index (fun j => negb (j =? k + i)%nat) k xs = delete i xs.
Proof.
  revert k i; induction xs as [|x xs IH]; intros k i; [reflexivity|].
  cbn [Js.filter_index]. destruct i as [|i].
  - replace (k + 0) with k by lia. rewrite Nat.eqb_refl. cbn [negb].
    apply filter_index_all. intros j Hj.
    destruct (Nat.eqb_spec j k); [lia | reflexivity].
  - destruct (Nat.eqb_spec k (k + S i)); [lia|]. cbn [negb].
    change (delete (S i) (x :: xs)) with (x :: delete i xs).
    f_equal. replace (k + S i) with (S k + i) by lia. apply IH.
Qed.

Lemma removePhoto_delete (st : UploadSection.state) (index : nat) :
  UploadSection.additionalPhotos (UploadSection.removePhoto index st)
  = delete index (UploadSection.additionalPhotos st).
Proof. apply (filter_index_delete _ 0 index). Qed.

(** X1: [removePhoto] takes out exactly the photo at [index]: the photos
    before it keep their place and the photos after it move up by one; an
    index past the end changes nothing; the report, the client information
    and the errors are untouched. *)
Theorem removePhoto_removes_one (st : UploadSection.state) (index : nat) :
  let photos := UploadSection.additionalPhotos st in
  let photos' := UploadSection.additionalPhotos (UploadSection.removePhoto index st) in
  photos' = take index photos ++ drop (S index) photos /\
  (index < length photos ->
   length photos' = length photos - 1 /\
   (forall j : nat, j < index -> photos' !! j = photos !! j) /\
   (forall j : nat, index <= j -> photos' !! j = photos !! S j)) /\
  (length photos <= index -> photos' = photos) /\
  UploadSection.mainReport (UploadSection.removePhoto index st) = UploadSection.mainReport st /\
  UploadSection.clientInfo (UploadSection.removePhoto index st) = UploadSection.clientInfo st /\
  UploadSection.errors (UploadSection.removePhoto index st) = UploadSection.errors st.
Proof.
  intros photos photos'. subst photos'. rewrite removePhoto_delete. fold photos.
  split; [apply delete_take_drop|].
  split.
  - intros Hlt. split; [apply length_delete, lookup_lt_is_Some; assumption|].
    split; intros j Hj.
    + apply list_lookup_delete_lt; assumption.
    + apply list_lookup_delete_ge; assumption.
  - split; [|repeat split].
    intros Hge. rewrite delete_take_drop, take_ge, drop_ge by lia.
    apply app_nil_r.
Qed.

Lemma removePhoto_removes_one_witness :
  1 < length (UploadSection.additionalPhotos (App.form Sample.filled)) /\
  map File.name
    (UploadSection.additionalPhotos
       (UploadSection.removePhoto 1 (App.form Sample.filled)))
  = ["a.jpg"; "c.jpg"; "d.jpg"; "e.jpg"] /\
  length (UploadSection.additionalPhotos
            (UploadSection.removePhoto 1 (App.form Sample.filled))) = 4.
Proof.
  split; [vm_compute; lia|]. split; [reflexivity|].
  apply (removePhoto_removes_one (App.form Sample.filled) 1). vm_compute; lia.
Defined.

(** X2: a drop on the photos zone appends the acceptable files of the drop
    to the photos already there, as far as places are left under the limit
    of 5; photos already in the list are neither dropped nor reordered,
    and a drop on a full list changes nothing. *)
Theorem dropped_photos_fill_free_places
    (st : UploadSection.state) (files : list File.t) :
  let photos := UploadSection.additionalPhotos st in
  let photos' :=
    UploadSection.additionalPhotos
      (UploadSection.step st (UploadSection.DropPhotos files)) in
  length photos <= 5 ->
  photos' = photos
            ++ take (5 - length photos)
                 (List.filter (Dropzone.accepted UploadSection.photosOptions) files) /\
  (length photos = 5 -> photos' = photos) /\
  (forall (i : nat) f, photos !! i = Some f -> photos' !! i = Some f).
Proof.
  intros photos photos' Hlen. subst photos'.
  assert (H : UploadSection.additionalPhotos
                (UploadSection.step st (UploadSection.DropPhotos files))
              = photos ++ take (5 - length photos)
                  (List.filter (Dropzone.accepted UploadSection.photosOptions) files)).
  { cbn [UploadSection.step UploadSection.onDropPhotos UploadSection.additionalPhotos].
    fold photos. apply take_app_ge. assumption. }
  rewrite H. split; [reflexivity|]. split.
  - intros H5. rewrite H5. cbn [Nat.sub take]. apply app_nil_r.
  - intros i f Hi. apply lookup_app_l_Some. assumption.
Qed.

Lemma dropped_photos_fill_free_places_witness :
  length (UploadSection.additionalPhotos (App.form Sample.filled)) = 5 /\
  UploadSection.additionalPhotos
    (UploadSection.step (App.form Sample.filled)
       (UploadSection.DropPhotos [Sample.photo "late"]))
  = UploadSection.additionalPhotos (App.form Sample.filled).
Proof.
  split; [reflexivity|].
  apply (dropped_photos_fill_free_places (App.form Sample.filled) [Sample.photo "late"]);
    vm_compute; lia.
Defined.

(** X3: a drop on the report zone selects a file exactly when one file of
    the drop is acceptable: that file replaces the report selected before
    and the report error is set to [null]; a drop with no acceptable file,
    or with several, leaves the form as it was. *)
Theorem report_drop_selects_single_file
    (st : UploadSection.state) (files : list File.t) :
  let ok := List.filter (Dropzone.accepted UploadSection.reportOptions) files in
  (forall f, ok = [f] ->
     UploadSection.step st (UploadSection.DropReport files) =
     {| UploadSection.mainReport := Some f;
        UploadSection.additionalPhotos := UploadSection.additionalPhotos st;
        UploadSection.clientInfo := UploadSection.clientInfo st;
        UploadSection.errors := <["report" := Js.null]> (UploadSection.errors st) |}) /\
  ((forall f, ok <> [f]) ->
     UploadSection.step st (UploadSection.DropReport files) = st).
Proof.
  intros ok. cbn [UploadSection.step]. unfold Dropzone.acceptedFiles.
  cbn [Dropzone.multiple UploadSection.reportOptions negb andb]. fold ok.
  split.
  - intros f ->. reflexivity.
  - intros Hne. destruct ok as [|f [|g rest]]; [reflexivity| |reflexivity].
    exfalso. apply (Hne f). reflexivity.
Qed.

Lemma report_drop_selects_single_file_witness :
  (forall f,
     List.filter (Dropzone.accepted UploadSection.reportOptions) [Sample.pdf; Sample.webp]
     <> [f]) /\
  UploadSection.mainReport
    (UploadSection.step UploadSection.initial
       (UploadSection.DropReport [Sample.pdf; Sample.webp])) = None.
Proof.
  split; [intros f; discriminate|].
  rewrite (proj2 (report_drop_selects_single_file UploadSection.initial
                    [Sample.pdf; Sample.webp])); [reflexivity|].
  intros f. discriminate.
Defined.

(** ** More invariants of the page *)

Lemma form_ok_initial : Inv.form_ok UploadSection.initial.
Proof. split; [constructor | left; reflexivity]. Qed.

Lemma form_ok_step (st : UploadSection.state) (ev : UploadSection.event) :
  Inv.form_ok st -> Inv.form_ok (UploadSection.step st ev).
Proof.
  intros [Hph Herr]. destruct ev; cbn [UploadSection.step]; try (split; assumption).
  - unfold UploadSection.onDropReport.
    destruct (Dropzone.acceptedFiles _ _); split; try assumption.
    right. cbn [UploadSection.errors]. apply lookup_insert_eq.
  - split; [|assumption]. cbn [UploadSection.onDropPhotos UploadSection.additionalPhotos].
    apply Forall_take, Forall_app. split; [assumption|].
    apply Forall_forall. intros f Hf.
    apply (acceptedFiles_accepted UploadSection.photosOptions files).
    apply list_elem_of_In. assumption.
  - split; [|assumption]. rewrite removePhoto_delete. apply Forall_delete. assumption.
Qed.

Lemma handleAnalyze_app_ok (e : App.env) (server : Axios.request -> Axios.reply)
    (formData : FormData.t) (st : App.state) :
  App.analysisResult st = None ->
  Inv.app_ok (fst (App.handleAnalyze e server formData st)).
Proof.
  intros Hnone. unfold App.handleAnalyze. cbn [fst].
  destruct (Axios.post _ _) as [data|err]; cbn.
  - right. repeat split. exists data. reflexivity.
  - left. split; [reflexivity | assumption].
Qed.

Lemma upload_screen_inv (a : App.state) :
  Inv.app_ok a -> App.main_screen a = App.UploadScreen ->
  App.currentStep a = App.upload /\ App.analysisResult a = None.
Proof.
  unfold App.main_screen. intros [[Hs Hr]|(Hs & _ & r & Hr)]; rewrite Hs.
  - intros _. split; [reflexivity | assumption].
  - rewrite Hr. discriminate.
Qed.

Lemma act_inv (e : App.env) (server : Axios.request -> Axios.reply)
    (p : App.page) (a : App.action) :
  Spec.page_ok p -> Inv.page_ok e p -> Inv.page_ok e (App.act e server p a).
Proof.
  intros (Hlen & Hrep & _) Hp. pose proof Hp as (Happ & Hform & Hsent).
  unfold App.act.
  destruct (App.main_screen (App.app p)) eqn:Escreen, a; try exact Hp.
  - split; [assumption|]. split; [apply form_ok_step|]; assumption.
  - unfold UploadSection.submit_enabled, App.submit.
    destruct (UploadSection.mainReport (App.form p)) as [f|] eqn:E; [|exact Hp].
    rewrite (handleSubmit_present _ f E).
    destruct (upload_screen_inv _ Happ Escreen) as [_ Hnone].
    pose proof (handleAnalyze_app_ok e server
                  (UploadSection.buildFormData (App.form p)) (App.app p) Hnone) as Hok.
    destruct (App.handleAnalyze e server _ (App.app p)) as [app' reqs] eqn:Eh.
    unfold App.handleAnalyze in Eh. injection Eh as _ <-.
    split; [exact Hok|]. split; [apply form_ok_initial|].
    cbn [App.sent]. apply Forall_app. split; [assumption|].
    constructor; [|constructor].
    exists (App.form p), f. destruct Hform as [Hph _].
    split; [reflexivity|]. split; [assumption|].
    split; [apply Hrep; reflexivity|]. split; assumption.
  - split; [left; split; reflexivity|].
    split; [apply form_ok_initial | assumption].
Qed.

Lemma reachable_inv (e : App.env) (p : App.page) :
  App.reachable e p -> Inv.page_ok e p.
Proof.
  induction 1 as [|server p a Hr IH].
  - split; [left; split; reflexivity|].
    split; [apply form_ok_initial | constructor].
  - apply act_inv; [apply (reachable_ok e); assumption | assumption].
Qed.

(** X4: a 2xx reply carrying an analysis result, as [Axios.reply] has
    it, on every reachable page the application is either on the
    [upload] step with no analysis result stored, or on the [results] step
    with a result stored and the error [null]; in the second case the page
    renders the results of that result and no error banner.  The
    [analyzing] step is never a resting state. *)
Theorem results_shown_without_error (e : App.env) (p : App.page) :
  App.reachable e p ->
  (App.currentStep (App.app p) = App.upload /\
   App.analysisResult (App.app p) = None) \/
  (exists r, App.currentStep (App.app p) = App.results /\
             App.analysisResult (App.app p) = Some r /\
             App.error (App.app p) = Js.null /\
             App.render (App.app p) = Some (Dom.nothing, App.ResultsScreen r)).
Proof.
  intros Hr. destruct (reachable_inv e p Hr) as [Happ _].
  destruct Happ as [[Hs Hn]|(Hs & He & r & Hres)].
  - left. split; assumption.
  - right. exists r.
    unfold App.render, App.errorBanner, App.main_screen.
    rewrite Hs, Hres, He. repeat split.
Qed.

Lemma results_shown_without_error_witness :
  App.reachable Sample.env Sample.submitted /\
  App.render (App.app Sample.submitted)
  = Some (Dom.nothing, App.ResultsScreen Sample.result).
Proof.
  split; [repeat apply App.reachable_act; apply App.reachable_start|].
  destruct (results_shown_without_error Sample.env Sample.submitted)
    as [[H _]|(r & _ & H2 & _ & H4)].
  - repeat apply App.reachable_act. apply App.reachable_start.
  - discriminate H.
  - rewrite H4. injection H2 as <-. reflexivity.
Defined.

Lemma keys_photos (l : list File.t) :
  Forall (fun k => In k ["photos"; "client_name"; "client_email"; "additional_notes"])
    (Inv.keys (map (fun p => ("photos", FormData.file p)) l)).
Proof.
  induction l; constructor; [left; reflexivity | assumption].
Qed.

Lemma keys_field (key v : string) :
  In key ["photos"; "client_name"; "client_email"; "additional_notes"] ->
  Forall (fun k => In k ["photos"; "client_name"; "client_email"; "additional_notes"])
    (Inv.keys (Spec.field key v)) /\
  length (Spec.field key v) <= 1.
Proof.
  intros Hk. unfold Spec.field.
  destruct (String.eqb v ""); cbn [Inv.keys map fst length]; split.
  - constructor.
  - lia.
  - constructor; [assumption | constructor].
  - lia.
Qed.

(** X5: every request sent from a reachable page is a POST of multipart
    form data to [/api/analyze] under the resolved base URL, with the
    timeout of 120000 ms; its body starts with the one [accident_report]
    file, every other entry is a photo or one of the three metadata
    fields, and it has at most 9 entries. *)
Theorem requests_are_analyze_posts (e : App.env) (p : App.page) :
  App.reachable e p ->
  Forall (fun req =>
            Axios.url req = App.resolveApiBaseUrl e +:+ "/api/analyze" /\
            Axios.timeout req = 120000%N /\
            Axios.content_type req = "multipart/form-data" /\
            length (Axios.body req) <= 9 /\
            exists f rest,
              Axios.body req = ("accident_report", FormData.file f) :: rest /\
              Forall (fun k => In k ["photos"; "client_name"; "client_email";
                                     "additional_notes"])
                (Inv.keys rest))
    (App.sent p).
Proof.
  intros Hr. destruct (reachable_inv e p Hr) as (_ & _ & Hsent).
  eapply Forall_impl; [exact Hsent|].
  intros req (st & f & -> & Hf & _ & _ & Hlen).
  cbn [App.analyze_request Axios.url Axios.timeout Axios.content_type Axios.body].
  do 3 (split; [reflexivity|]).
  rewrite buildFormData_shape, Hf.
  destruct (keys_field "client_name" (UploadSection.name (UploadSection.clientInfo st)))
    as [Hk1 Hl1]; [right; left; reflexivity|].
  destruct (keys_field "client_email" (UploadSection.email (UploadSection.clientInfo st)))
    as [Hk2 Hl2]; [right; right; left; reflexivity|].
  destruct (keys_field "additional_notes" (UploadSection.notes (UploadSection.clientInfo st)))
    as [Hk3 Hl3]; [right; right; right; left; reflexivity|].
  split.
  - rewrite !length_app, length_map. cbn [length]. lia.
  - eexists f, _. split; [reflexivity|].
    unfold Inv.keys in *. rewrite !map_app, !Forall_app.
    split; [apply keys_photos|]. split; [assumption|]. split; assumption.
Qed.

Lemma requests_are_analyze_posts_witness :
  App.reachable Sample.env Sample.submitted /\
  map Axios.url (App.sent Sample.submitted) = ["http://localhost:8000/api/analyze"] /\
  Forall (fun req => length (Axios.body req) <= 9) (App.sent Sample.submitted).
Proof.
  split; [repeat apply App.reachable_act; apply App.reachable_start|].
  split; [reflexivity|].
  eapply Forall_impl.
  - apply (requests_are_analyze_posts Sample.env Sample.submitted).
    repeat apply App.reachable_act. apply App.reachable_start.
  - intros req H. apply H.
Defined.

Lemma accepted_size (o : Dropzone.options) (f : File.t) :
  Dropzone.accepted o f = true -> (File.size f <= Dropzone.maxSize o)%N.
Proof.
  unfold Dropzone.accepted, Dropzone.fileMatchSize.
  rewrite andb_true_iff, negb_true_iff, N.ltb_ge. tauto.
Qed.

Lemma files_app (a b : FormData.t) : Inv.files (a ++ b) = Inv.files a ++ Inv.files b.
Proof. unfold Inv.files. apply flat_map_app. Qed.

Lemma files_photos (l : list File.t) :
  Inv.files (map (fun p => ("photos", FormData.file p)) l) = l.
Proof.
  induction l as [|x l IH]; [reflexivity|]. cbn. f_equal. exact IH.
Qed.

Lemma files_field (key v : string) : Inv.files (Spec.field key v) = [].
Proof. unfold Spec.field. destruct (String.eqb v ""); reflexivity. Qed.

Lemma buildFormData_files (st : UploadSection.state) (f : File.t) :
  UploadSection.mainReport st = Some f ->
  Inv.files (UploadSection.buildFormData st) = f :: UploadSection.additionalPhotos st.
Proof.
  intros Hf. rewrite buildFormData_shape, Hf, !files_app, files_photos, !files_field.
  cbn. rewrite !app_nil_r. reflexivity.
Qed.

(** X6: no request sent from a reachable page carries a file of more than
    10485760 bytes, as report or as photo; and every file under the key
    [photos] was accepted by the photos dropzone. *)
Theorem sent_files_within_limit (e : App.env) (p : App.page) :
  App.reachable e p ->
  Forall (fun req =>
            Forall (fun f => (File.size f <= 10485760)%N) (Inv.files (Axios.body req)) /\
            forall g, In (FormData.file g) (FormData.getAll "photos" (Axios.body req)) ->
                      Dropzone.accepted UploadSection.photosOptions g = true)
    (App.sent p).
Proof.
  intros Hr. destruct (reachable_inv e p Hr) as (_ & _ & Hsent).
  eapply Forall_impl; [exact Hsent|].
  intros req (st & f & -> & Hf & Hacc & Hph & _).
  cbn [App.analyze_request Axios.body]. split.
  - rewrite (buildFormData_files st f Hf). constructor.
    + apply (accepted_size UploadSection.reportOptions). assumption.
    + eapply Forall_impl; [exact Hph|]. intros g Hg.
      apply (accepted_size UploadSection.photosOptions). assumption.
  - intros g Hg. rewrite buildFormData_photos in Hg.
    apply in_map_iff in Hg. destruct Hg as (g' & [= ->] & Hin).
    rewrite Forall_forall in Hph. apply Hph, list_elem_of_In. assumption.
Qed.

Lemma sent_files_within_limit_witness :
  App.reachable Sample.env Sample.submitted /\
  Forall (fun req =>
            Forall (fun f => (File.size f <= 10485760)%N) (Inv.files (Axios.body req)))
    (App.sent Sample.submitted).
Proof.
  split; [repeat apply App.reachable_act; apply App.reachable_start|].
  eapply Forall_impl.
  - apply (sent_files_within_limit Sample.env Sample.submitted).
    repeat apply App.reachable_act. apply App.reachable_start.
  - intros req H. apply H.
Defined.

(** X7: on every reachable page the report error of the form is absent or
    [null], so its paragraph is not rendered: the submit button is disabled
    without a report, and the message of [validateForm] never reaches the
    screen. *)
Theorem report_error_never_shown (e : App.env) (p : App.page) :
  App.reachable e p ->
  Js.truthy (UploadSectionView.errors_report (App.form p)) = false /\
  UploadSectionView.reportError (App.form p) = Dom.nothing.
Proof.
  intros Hr. destruct (reachable_inv e p Hr) as (_ & [_ Herr] & _).
  unfold UploadSectionView.reportError, UploadSectionView.errors_report.
  destruct Herr as [-> | ->]; split; reflexivity.
Qed.

Lemma report_error_never_shown_witness :
  App.reachable Sample.env Sample.filled /\
  UploadSectionView.reportError (App.form Sample.filled) = Dom.nothing.
Proof.
  split; [repeat apply App.reachable_act; apply App.reachable_start|].
  apply (report_error_never_shown Sample.env Sample.filled).
  repeat apply App.reachable_act. apply App.reachable_start.
Defined.

(** ** Submitting and starting over *)

(** X8: a click on the submit button of a form with a selected report
    sends exactly one request, built from the form as it stands, and leaves
    an empty form behind, whatever the server answers: after a failed
    analysis the report, the photos and the client information have to be
    entered again. *)
Theorem submit_sends_once_and_clears_form
    (e : App.env) (server : Axios.request -> Axios.reply) (p : App.page) (f : File.t) :
  App.main_screen (App.app p) = App.UploadScreen ->
  UploadSection.mainReport (App.form p) = Some f ->
  let p' := App.act e server p App.ClickSubmit in
  App.sent p' = App.sent p
                ++ [App.analyze_request e (UploadSection.buildFormData (App.form p))] /\
  FormData.getAll "accident_report" (UploadSection.buildFormData (App.form p))
  = [FormData.file f] /\
  App.form p' = UploadSection.initial.
Proof.
  intros Hscreen Hf p'. subst p'. unfold App.act. rewrite Hscreen.
  unfold UploadSection.submit_enabled, App.submit. rewrite Hf.
  rewrite (handleSubmit_present _ f Hf). unfold App.handleAnalyze.
  split; [reflexivity|]. split; [|reflexivity].
  apply buildFormData_report. assumption.
Qed.

Lemma submit_sends_once_and_clears_form_witness :
  App.main_screen (App.app Sample.filled) = App.UploadScreen /\
  UploadSection.mainReport (App.form Sample.filled) = Some Sample.pdf /\
  App.form (App.act Sample.env Sample.refusing_server Sample.filled App.ClickSubmit)
  = UploadSection.initial.
Proof.
  split; [reflexivity|]. split; [reflexivity|].
  apply (submit_sends_once_and_clears_form Sample.env Sample.refusing_server
           Sample.filled Sample.pdf); reflexivity.
Defined.

(** X9: when the server answers with a result within 120000 ms,
    [handleAnalyze] stores exactly that result, shows the results screen
    and leaves no error: an error of an earlier attempt is cleared. *)
Theorem answered_analyze_shows_result
    (e : App.env) (server : Axios.request -> Axios.reply)
    (formData : FormData.t) (st : App.state) (l : N) (r : Api.Result) :
  server (App.analyze_request e formData) = Axios.answers l r ->
  (l <= 120000)%N ->
  let st' := fst (App.handleAnalyze e server formData st) in
  st' = {| App.currentStep := App.results;
           App.analysisResult := Some r;
           App.error := Js.null |} /\
  App.main_screen st' = App.ResultsScreen r /\
  App.errorBanner st' = Some Dom.nothing.
Proof.
  intros Hs Hl st'. subst st'. unfold App.handleAnalyze. cbn [fst].
  rewrite Hs. cbn [Axios.post].
  assert (Hto : Axios.timed_out (Axios.timeout (App.analyze_request e formData)) l = false).
  { unfold Axios.timed_out. cbn [App.analyze_request Axios.timeout].
    apply andb_false_iff. right. apply N.ltb_ge. assumption. }
  rewrite Hto. repeat split.
Qed.

Lemma answered_analyze_shows_result_witness :
  Sample.good_server (App.analyze_request Sample.env [])
  = Axios.answers 9000 Sample.result /\
  (9000 <= 120000)%N /\
  App.main_screen
    (fst (App.handleAnalyze Sample.env Sample.good_server []
            (App.setError (Js.str "earlier failure") App.initial)))
  = App.ResultsScreen Sample.result.
Proof.
  split; [reflexivity|]. split; [vm_compute; discriminate|].
  apply (answered_analyze_shows_result Sample.env Sample.good_server []
           (App.setError (Js.str "earlier failure") App.initial) 9000 Sample.result).
  - reflexivity.
  - vm_compute; discriminate.
Defined.

(** X10: an analysis that succeeds, followed by "Analyze Another Case",
    brings the application and the form back to their initial states; only
    the request stays sent. *)
Theorem analyze_then_reset_starts_over
    (e : App.env) (server : Axios.request -> Axios.reply) (p : App.page)
    (f : File.t) (l : N) (r : Api.Result) :
  App.main_screen (App.app p) = App.UploadScreen ->
  UploadSection.mainReport (App.form p) = Some f ->
  server (App.analyze_request e (UploadSection.buildFormData (App.form p)))
  = Axios.answers l r ->
  (l <= 120000)%N ->
  App.act e server (App.act e server p App.ClickSubmit) App.ClickReset
  = {| App.app := App.initial;
       App.form := UploadSection.initial;
       App.sent := App.sent p
                   ++ [App.analyze_request e (UploadSection.buildFormData (App.form p))] |}.
Proof.
  intros Hscreen Hf Hs Hl.
  pose proof (answered_analyze_shows_result e server
                (UploadSection.buildFormData (App.form p)) (App.app p) l r Hs Hl)
    as (Hst & _ & _).
  assert (Hsub : App.act e server p App.ClickSubmit
                 = {| App.app := {| App.currentStep := App.results;
                                    App.analysisResult := Some r;
                                    App.error := Js.null |};
                      App.form := UploadSection.initial;
                      App.sent := App.sent p
                        ++ [App.analyze_request e
                              (UploadSection.buildFormData (App.form p))] |}).
  { unfold App.act. rewrite Hscreen.
    unfold UploadSection.submit_enabled, App.submit. rewrite Hf.
    rewrite (handleSubmit_present _ f Hf).
    destruct (App.handleAnalyze e server _ (App.app p)) as [app' reqs] eqn:Eh.
    cbn [fst] in Hst. subst app'.
    unfold App.handleAnalyze in Eh. injection Eh as _ <-. reflexivity. }
  rewrite Hsub. reflexivity.
Qed.

Lemma analyze_then_reset_starts_over_witness :
  App.main_screen (App.app Sample.filled) = App.UploadScreen /\
  App.app (App.act Sample.env Sample.good_server Sample.submitted App.ClickReset)
  = App.initial.
Proof.
  split; [reflexivity|].
  unfold Sample.submitted.
  rewrite (analyze_then_reset_starts_over Sample.env Sample.good_server Sample.filled
             Sample.pdf 9000 Sample.result);
    [reflexivity | reflexivity | reflexivity | reflexivity | vm_compute; discriminate].
Defined.

(** ** More of the results view *)

Lemma by_class_child (c : string) (v : Js.value) : Dom.by_class c (Dom.child v) = [].
Proof. destruct v; reflexivity. Qed.

Lemma by_class_and_jsx (c : string) (v : Js.value) (n : Dom.node) :
  Dom.by_class c (Dom.and_jsx v n) = if Js.truthy v then Dom.by_class c n else [].
Proof.
  unfold Dom.and_jsx. destruct (Js.truthy v); [reflexivity | apply by_class_child].
Qed.

Lemma by_class_when (c : string) (b : bool) (n : Dom.node) :
  Dom.by_class c (Dom.when b n) = if b then Dom.by_class c n else [].
Proof. destruct b; reflexivity. Qed.

Lemma by_class_text (c s : string) : Dom.by_class c (Dom.text s) = [].
Proof. reflexivity. Qed.

Lemma by_class_num (c : string) (q : Q) : Dom.by_class c (Dom.num q) = [].
Proof. reflexivity. Qed.

Lemma by_class_nothing (c : string) : Dom.by_class c Dom.nothing = [].
Proof. reflexivity. Qed.

Lemma by_class_double (c : string) (d : Double.t) : Dom.by_class c (Double.child d) = [].
Proof. destruct d; reflexivity. Qed.

(** The items of a list, each found once under its own class. *)
Lemma by_class_items {A} (c : string) (f : A -> Dom.node) (l : list A) :
  (forall x, Dom.by_class c (f x) = [f x]) ->
  flat_map (Dom.by_class c) (map f l) = map f l.
Proof.
  intros Hf. induction l as [|x l IH]; [reflexivity|].
  cbn [map flat_map]. rewrite Hf, IH. reflexivity.
Qed.

(** The items of a list, none of them of class [c]. *)
Lemma by_class_no_items {A} (c : string) (f : A -> Dom.node) (l : list A) :
  (forall x, Dom.by_class c (f x) = []) ->
  flat_map (Dom.by_class c) (map f l) = [].
Proof.
  intros Hf. induction l as [|x l IH]; [reflexivity|].
  cbn [map flat_map]. rewrite Hf, IH. reflexivity.
Qed.

Create Rewrite HintDb by_class.

#[local] Hint Rewrite by_class_elem by_class_child by_class_and_jsx by_class_when
  by_class_text by_class_num by_class_nothing by_class_double : by_class.

(** Decides the comparisons of class names that stand in the goal. *)
Ltac class_eqb :=
  repeat match goal with
    | |- context [String.eqb ?a ?b] =>
        let v := eval vm_compute in (String.eqb a b) in
        match v with
        | true => change (String.eqb a b) with true
        | false => change (String.eqb a b) with false
        end
    end.

(** Unfolds the search for a class through a tree of elements. *)
Ltac by_class_search :=
  repeat (autorewrite with by_class; cbn [flat_map app]);
  class_eqb; cbn [flat_map app]; rewrite ?app_nil_r.

Lemma Qfloor_half_mono (x y : Q) : (x <= y)%Q -> (Dom.round x <= Dom.round y)%Z.
Proof.
  intros H. unfold Dom.round. apply Qfloor_resp_le.
  apply Qplus_le_l. assumption.
Qed.

(** *** Rounding to doubles *)

Lemma pow2_pos (e : Z) : (0 < 2 ^ e)%Q.
Proof. apply Qpower_0_lt. reflexivity. Qed.

Lemma pow2_add (a b : Z) : (2 ^ (a + b) == 2 ^ a * 2 ^ b)%Q.
Proof. apply Qpower_plus. discriminate. Qed.

Lemma pow2_le (a b : Z) : (a <= b)%Z -> (2 ^ a <= 2 ^ b)%Q.
Proof. intros H. apply Qpower_le_compat_l; [assumption | discriminate]. Qed.

Lemma pow2_Z (e : Z) : (0 <= e)%Z -> (2 ^ e == inject_Z (2 ^ e))%Q.
Proof. intros H. symmetry. apply (Zpower_Qpower 2 e H). Qed.

(** Comparing a fraction with a quotient of powers of two. *)
Lemma pow2_sub_le (a b : Z) (n d : positive) :
  (0 <= a)%Z -> (0 <= b)%Z ->
  ((2 ^ (a - b) <= Z.pos n # d)%Q <-> (2 ^ a * Z.pos d <= Z.pos n * 2 ^ b)%Z).
Proof.
  intros Ha Hb.
  assert (HA : (0 < 2 ^ a)%Z) by (apply Z.pow_pos_nonneg; lia).
  assert (HB : (0 < 2 ^ b)%Z) by (apply Z.pow_pos_nonneg; lia).
  rewrite Qpower_minus by discriminate.
  rewrite (pow2_Z a Ha), (pow2_Z b Hb).
  destruct (2 ^ a)%Z as [|A|A] eqn:EA; try lia.
  destruct (2 ^ b)%Z as [|B|B] eqn:EB; try lia.
  unfold Qle, Qdiv, Qmult, Qinv, inject_Z. cbn. lia.
Qed.

Lemma pow2_sub_gt (a b : Z) (n d : positive) :
  (0 <= a)%Z -> (0 <= b)%Z ->
  ((Z.pos n # d < 2 ^ (a - b))%Q <-> (Z.pos n * 2 ^ b < 2 ^ a * Z.pos d)%Z).
Proof.
  intros Ha Hb. split.
  - intros H. apply Z.nle_gt. intros Hle.
    apply (Qlt_not_le _ _ H). apply pow2_sub_le; assumption.
  - intros H. apply Qnot_le_lt. intros Hle.
    apply pow2_sub_le in Hle; try assumption. lia.
Qed.

Lemma floor_log2_spec (n d : positive) :
  (2 ^ Double.floor_log2 n d <= Z.pos n # d)%Q /\
  (Z.pos n # d < 2 ^ (Double.floor_log2 n d + 1))%Q.
Proof.
  unfold Double.floor_log2.
  set (a := Z.log2 (Z.pos n)). set (b := Z.log2 (Z.pos d)).
  assert (Ha : (0 <= a)%Z) by apply Z.log2_nonneg.
  assert (Hb : (0 <= b)%Z) by apply Z.log2_nonneg.
  destruct (Z.log2_spec (Z.pos n)) as [Hn1 Hn2]; [lia|]. fold a in Hn1, Hn2.
  destruct (Z.log2_spec (Z.pos d)) as [Hd1 Hd2]; [lia|]. fold b in Hd1, Hd2.
  rewrite Z.pow_succ_r in Hn2, Hd2 by assumption.
  assert (HA : (0 < 2 ^ a)%Z) by (apply Z.pow_pos_nonneg; lia).
  assert (HB : (0 < 2 ^ b)%Z) by (apply Z.pow_pos_nonneg; lia).
  destruct (Z.leb_spec (Z.pos d * 2 ^ a) (Z.pos n * 2 ^ b)) as [Hle|Hgt].
  - split.
    + apply pow2_sub_le; try assumption. lia.
    + replace (a - b + 1)%Z with ((a + 1) - b)%Z by lia.
      apply pow2_sub_gt; try lia.
      rewrite Z.pow_add_r by lia. change (2 ^ 1)%Z with 2%Z. nia.
  - split.
    + replace (a - b - 1)%Z with (a - (b + 1))%Z by lia.
      apply pow2_sub_le; try lia.
      rewrite Z.pow_add_r by lia. change (2 ^ 1)%Z with 2%Z. nia.
    + replace (a - b - 1 + 1)%Z with (a - b)%Z by lia.
      apply pow2_sub_gt; try assumption. lia.
Qed.

(** [nearest_even] *)
Lemma nearest_even_floor (x : Q) :
  (Qfloor x <= Double.nearest_even x <= Qfloor x + 1)%Z.
Proof.
  unfold Double.nearest_even.
  destruct (x - inject_Z (Qfloor x) ?= 1 # 2)%Q; [destruct (Z.even _)| |]; lia.
Qed.

Lemma nearest_even_ge (x : Q) (K : Z) :
  (inject_Z K <= x)%Q -> (K <= Double.nearest_even x)%Z.
Proof.
  intros H. apply Qfloor_resp_le in H. rewrite Qfloor_Z in H.
  pose proof (nearest_even_floor x). lia.
Qed.

Lemma nearest_even_le (x : Q) (K : Z) :
  (x <= inject_Z K)%Q -> (Double.nearest_even x <= K)%Z.
Proof.
  intros H.
  pose proof (Qfloor_resp_le _ _ H) as Hf. rewrite Qfloor_Z in Hf.
  destruct (Z.eq_dec (Qfloor x) K) as [E|E].
  - (* x is the integer K *)
    assert (Hx : (x == inject_Z K)%Q).
    { apply Qle_antisym; [assumption|]. rewrite <- E. apply Qfloor_le. }
    unfold Double.nearest_even. rewrite E.
    assert (Hc : (x - inject_Z K ?= 1 # 2)%Q = Lt).
    { apply Qlt_alt. rewrite Hx. unfold Qminus. rewrite Qplus_opp_r. reflexivity. }
    rewrite Hc. lia.
  - pose proof (nearest_even_floor x). lia.
Qed.

Lemma nearest_even_mono (x y : Q) :
  (x <= y)%Q -> (Double.nearest_even x <= Double.nearest_even y)%Z.
Proof.
  intros H. pose proof (Qfloor_resp_le _ _ H) as Hf.
  destruct (Z.eq_dec (Qfloor x) (Qfloor y)) as [E|E].
  - unfold Double.nearest_even. rewrite <- E.
    set (k := Qfloor x).
    assert (Hfr : (x - inject_Z k <= y - inject_Z k)%Q).
    { unfold Qminus. apply Qplus_le_l. assumption. }
    destruct (x - inject_Z k ?= 1 # 2)%Q eqn:Cx;
      destruct (y - inject_Z k ?= 1 # 2)%Q eqn:Cy;
      try (destruct (Z.even k)); try lia; exfalso;
      repeat match goal with
        | H : (_ ?= _)%Q = Eq |- _ => apply Qeq_alt in H
        | H : (_ ?= _)%Q = Lt |- _ => apply Qlt_alt in H
        | H : (_ ?= _)%Q = Gt |- _ => apply Qgt_alt in H
        end; lra.
  - pose proof (nearest_even_floor x). pose proof (nearest_even_floor y). lia.
Qed.

Lemma floor_log2_mono (n1 d1 n2 d2 : positive) :
  (Z.pos n1 # d1 <= Z.pos n2 # d2)%Q ->
  (Double.floor_log2 n1 d1 <= Double.floor_log2 n2 d2)%Z.
Proof.
  intros H.
  destruct (floor_log2_spec n1 d1) as [L1 _].
  destruct (floor_log2_spec n2 d2) as [_ U2].
  apply Z.nlt_ge. intros Hlt.
  assert (Hp : (2 ^ (Double.floor_log2 n2 d2 + 1) <= 2 ^ Double.floor_log2 n1 d1)%Q)
    by (apply pow2_le; lia).
  lra.
Qed.

Lemma div_pow2_le (x y : Q) (q : Z) : (x <= y)%Q -> (x / 2 ^ q <= y / 2 ^ q)%Q.
Proof.
  intros H. unfold Qdiv. apply Qmult_le_compat_r; [assumption|].
  apply Qinv_le_0_compat, Qlt_le_weak, pow2_pos.
Qed.

Lemma pow2_div (e q : Z) : (q <= e)%Z -> (2 ^ e / 2 ^ q == inject_Z (2 ^ (e - q)))%Q.
Proof.
  intros H. rewrite <- Qpower_minus by discriminate.
  apply pow2_Z. lia.
Qed.

Lemma grid_le (x : Q) (e q : Z) :
  (q <= e)%Z -> (x <= 2 ^ e)%Q ->
  (inject_Z (Double.nearest_even (x / 2 ^ q)) * 2 ^ q <= 2 ^ e)%Q.
Proof.
  intros Hq Hx.
  assert (Hn : (Double.nearest_even (x / 2 ^ q) <= 2 ^ (e - q))%Z).
  { apply nearest_even_le. rewrite <- pow2_div by assumption.
    apply div_pow2_le. assumption. }
  assert (He : (2 ^ e == inject_Z (2 ^ (e - q)) * 2 ^ q)%Q).
  { rewrite <- pow2_Z by lia. rewrite <- pow2_add. apply Qpower_comp; [reflexivity | lia]. }
  rewrite He. apply Qmult_le_compat_r; [|apply Qlt_le_weak, pow2_pos].
  rewrite <- Zle_Qle. assumption.
Qed.

Lemma grid_ge (x : Q) (e q : Z) :
  (q <= e)%Z -> (2 ^ e <= x)%Q ->
  (2 ^ e <= inject_Z (Double.nearest_even (x / 2 ^ q)) * 2 ^ q)%Q.
Proof.
  intros Hq Hx.
  assert (Hn : (2 ^ (e - q) <= Double.nearest_even (x / 2 ^ q))%Z).
  { apply nearest_even_ge. rewrite <- pow2_div by assumption.
    apply div_pow2_le. assumption. }
  assert (He : (2 ^ e == inject_Z (2 ^ (e - q)) * 2 ^ q)%Q).
  { rewrite <- pow2_Z by lia. rewrite <- pow2_add. apply Qpower_comp; [reflexivity | lia]. }
  rewrite He. apply Qmult_le_compat_r; [|apply Qlt_le_weak, pow2_pos].
  rewrite <- Zle_Qle. assumption.
Qed.

Lemma nearest_mono (n1 d1 n2 d2 : positive) :
  (Z.pos n1 # d1 <= Z.pos n2 # d2)%Q ->
  (Double.nearest n1 d1 <= Double.nearest n2 d2)%Q.
Proof.
  intros H. unfold Double.nearest, Double.ulp_exponent.
  pose proof (floor_log2_mono _ _ _ _ H) as He.
  destruct (floor_log2_spec n1 d1) as [_ U1].
  destruct (floor_log2_spec n2 d2) as [L2 _].
  set (e1 := Double.floor_log2 n1 d1) in *.
  set (e2 := Double.floor_log2 n2 d2) in *.
  destruct (Z.eq_dec (Z.max (e1 - 52) (-1074)) (Z.max (e2 - 52) (-1074))) as [E|E].
  - rewrite <- E. set (q := Z.max (e1 - 52) (-1074)).
    apply Qmult_le_compat_r; [|apply Qlt_le_weak, pow2_pos].
    rewrite <- Zle_Qle. apply nearest_even_mono, div_pow2_le. assumption.
  - assert (Hlt : (e1 + 1 <= e2)%Z) by lia.
    apply Qle_trans with (2 ^ e2)%Q.
    + apply grid_le; [lia|].
      apply Qle_trans with (2 ^ (e1 + 1))%Q; [apply Qlt_le_weak; assumption|].
      apply pow2_le. assumption.
    + apply grid_ge; [lia | assumption].
Qed.

Lemma nearest_nonneg (n d : positive) : (0 <= Double.nearest n d)%Q.
Proof.
  unfold Double.nearest. apply Qmult_le_0_compat; [|apply Qlt_le_weak, pow2_pos].
  change 0%Q with (inject_Z 0). rewrite <- Zle_Qle.
  apply nearest_even_ge. change (inject_Z 0) with 0%Q.
  apply Qle_shift_div_l; [apply pow2_pos|]. rewrite Qmult_0_l. discriminate.
Qed.

Lemma of_Q_pos (x : Q) :
  (0 < x)%Q ->
  exists n, x = Z.pos n # Qden x /\ Double.of_Q x = Double.round_pos n (Qden x).
Proof.
  destruct x as [[|n|n] d]; unfold Qlt; cbn; intros H; try lia.
  exists n. split; reflexivity.
Qed.

Lemma round_pos_finite (n d : positive) (p : Q) :
  Double.round_pos n d = Double.finite p -> p = Qred (Double.nearest n d).
Proof.
  unfold Double.round_pos. destruct (Qle_bool _ _); [discriminate|].
  intros [= <-]. reflexivity.
Qed.

Lemma round_pos_below (n d : positive) (b : Q) :
  (Z.pos n # d <= b)%Q -> (b < 2 ^ 1024)%Q ->
  forall m k, b = Z.pos m # k -> (Double.nearest m k <= b)%Q ->
  Double.round_pos n d = Double.finite (Qred (Double.nearest n d)) /\
  (Double.nearest n d <= b)%Q.
Proof.
  intros Hle Hb m k -> Hm.
  assert (Hn : (Double.nearest n d <= Z.pos m # k)%Q).
  { eapply Qle_trans; [apply nearest_mono; exact Hle | exact Hm]. }
  split; [|exact Hn].
  unfold Double.round_pos.
  destruct (Qle_bool (2 ^ 1024) (Double.nearest n d)) eqn:E; [|reflexivity].
  apply Qle_bool_iff in E. lra.
Qed.

Lemma round_small (p : Q) : (0 <= p)%Q -> (p < 1 # 2)%Q -> Dom.round p = 0%Z.
Proof.
  intros H0 H1. unfold Dom.round. apply Z.le_antisymm.
  - assert (Hf := Qfloor_le (p + (1 # 2))).
    assert (Hz : (inject_Z (Qfloor (p + (1 # 2))) < inject_Z 1)%Q)
      by (change (inject_Z 1) with 1%Q; lra).
    rewrite <- Zlt_Qlt in Hz. lia.
  - change 0%Z with (Qfloor 0). apply Qfloor_resp_le. lra.
Qed.

(** The product of the double nearest to 0.015 and 100 is rounded to 1.5,
    and printed as 2. *)
Lemma percent_of_0_015 :
  Double.of_Q (15 # 1000) = Double.finite Example.c_0_015 /\
  Double.mul Example.c_0_015 100 = Double.finite (3 # 2) /\
  Double.math_round (Double.mul Example.c_0_015 100) = Double.finite 2.
Proof. repeat split. Qed.

(** X11: for a confidence above 0 and at most 1 the indicator is the
    confidence card; the product of the confidence and 100, rounded to a
    double, is finite, and the percentage printed, [Math.round] of it, is
    a whole number between 0 and 100 that does not decrease when the
    confidence grows; a confidence of at most 0.0049 is printed as 0. *)
Theorem confidence_percent_in_range (result : Api.Result) (c : Q) :
  Api.extraction_confidence (Api.analysis result) = Some c ->
  (0 < c)%Q -> (c <= 1)%Q ->
  AnalysisResults.dataQualityIndicator result = AnalysisResults.confidenceCard c result /\
  exists p : Q,
    Double.mul c 100 = Double.finite p /\
    Double.child (Double.math_round (Double.mul c 100))
    = Dom.num (inject_Z (Dom.round p)) /\
    (0 <= Dom.round p <= 100)%Z /\
    (forall c' p', (c <= c')%Q -> Double.mul c' 100 = Double.finite p' ->
                   (Dom.round p <= Dom.round p')%Z) /\
    ((c <= 49 # 10000)%Q -> Dom.round p = 0%Z).
Proof.
  intros Hc Hpos Hle.
  split.
  - unfold AnalysisResults.dataQualityIndicator, Dom.and_jsx. rewrite Hc. cbn [Js.truthy].
    destruct (Qeq_bool c 0) eqn:E; [|reflexivity].
    apply Qeq_bool_iff in E. lra.
  - unfold Double.mul.
    destruct (of_Q_pos (c * 100)) as (n & Hx & Hof); [lra|].
    set (d := Qden (c * 100)) in *.
    assert (Hxle : (Z.pos n # d <= 100)%Q) by (rewrite <- Hx; lra).
    destruct (round_pos_below n d 100 Hxle) with (m := 100%positive) (k := 1%positive)
      as [Hfin Hp100]; [reflexivity | reflexivity | vm_compute; discriminate |].
    exists (Qred (Double.nearest n d)).
    rewrite Hof, Hfin.
    split; [reflexivity|]. split; [reflexivity|].
    pose proof (nearest_nonneg n d) as Hp0.
    split; [split|split].
    + change 0%Z with (Dom.round 0). apply Qfloor_half_mono.
      rewrite Qred_correct. assumption.
    + change 100%Z with (Dom.round 100). apply Qfloor_half_mono.
      rewrite Qred_correct. assumption.
    + intros c' p' Hcc Hp'.
      destruct (of_Q_pos (c' * 100)) as (n' & Hx' & Hof'); [lra|].
      rewrite Hof' in Hp'. apply round_pos_finite in Hp'. subst p'.
      apply Qfloor_half_mono. rewrite !Qred_correct. apply nearest_mono.
      rewrite <- Hx'. fold d. rewrite <- Hx. lra.
    + intros Hsmall. apply round_small; rewrite Qred_correct; [assumption|].
      apply Qle_lt_trans with (Double.nearest 49 100).
      * apply nearest_mono. rewrite <- Hx. lra.
      * vm_compute. reflexivity.
Qed.

Lemma confidence_percent_in_range_witness :
  (0 < 3 # 1000)%Q /\ (3 # 1000 <= 1)%Q /\ (3 # 1000 <= 49 # 10000)%Q /\
  AnalysisResults.dataQualityIndicator Example.faint
  = AnalysisResults.confidenceCard (3 # 1000) Example.faint /\
  Double.child (Double.math_round (Double.mul (3 # 1000) 100)) = Dom.num (inject_Z 0).
Proof.
  split; [reflexivity|]. split; [discriminate|]. split; [discriminate|].
  destruct (confidence_percent_in_range Example.faint (3 # 1000))
    as (Hcard & p & _ & Hchild & _ & _ & Hsmall);
    [reflexivity | reflexivity | discriminate |].
  split; [exact Hcard|].
  rewrite Hchild, Hsmall; [reflexivity | discriminate].
Defined.

(** X12: for a confidence other than 0 the indicator holds the missing
    information line exactly when [missing_information] is a list that is
    not empty, and the line names the fields in their order, separated by
    a comma and a space. *)
Theorem missing_line_lists_fields (result : Api.Result) (c : Q) :
  Api.extraction_confidence (Api.analysis result) = Some c ->
  ~ (c == 0)%Q ->
  Dom.by_class AnalysisResults.missing_class (AnalysisResults.dataQualityIndicator result)
  = match Api.missing_information (Api.analysis result) with
    | Some (field :: fields) =>
        [Dom.elem "div" AnalysisResults.missing_class
           [Dom.elem "FaExclamationTriangle" "inline mr-1" [];
            Dom.text "Missing: ";
            Dom.text (Js.join ", " (field :: fields))]]
    | _ => []
    end.
Proof.
  intros Hc Hne.
  unfold AnalysisResults.dataQualityIndicator, Dom.and_jsx. rewrite Hc. cbn [Js.truthy].
  destruct (Qeq_bool c 0) eqn:E; [apply Qeq_bool_iff in E; contradiction|].
  cbn [negb]. unfold AnalysisResults.confidenceCard, AnalysisResults.missingWarning.
  destruct (Api.missing_information (Api.analysis result)) as [[|field fields]|];
    cbn [Dom.nonempty default];
    generalize (Double.math_round (Double.mul c 100)); intros pct;
    by_class_search; reflexivity.
Qed.

Lemma missing_line_lists_fields_witness :
  ~ (3 # 1000 == 0)%Q /\
  Dom.by_class AnalysisResults.missing_class
    (AnalysisResults.dataQualityIndicator Example.faint)
  = [Dom.elem "div" AnalysisResults.missing_class
       [Dom.elem "FaExclamationTriangle" "inline mr-1" [];
        Dom.text "Missing: ";
        Dom.text "party_a.name, accident_details.time"]].
Proof.
  split; [discriminate|].
  apply (missing_line_lists_fields Example.faint (3 # 1000)); [reflexivity | discriminate].
Defined.

Lemma by_class_chip (c cl label : string) (code : Js.value) :
  Dom.by_class c (Dom.elem "span" cl [Dom.text label; Dom.child code])
  = if String.eqb cl c then [Dom.elem "span" cl [Dom.text label; Dom.child code]] else [].
Proof.
  by_class_search. destruct (String.eqb cl c); reflexivity.
Qed.

Lemma by_class_chips (c cl label : string) (l : list Js.value) :
  flat_map (Dom.by_class c)
    (map (fun code => Dom.elem "span" cl [Dom.text label; Dom.child code]) l)
  = if String.eqb cl c
    then map (fun code => Dom.elem "span" cl [Dom.text label; Dom.child code]) l
    else [].
Proof.
  destruct (String.eqb cl c) eqn:E.
  - apply by_class_items. intros x. rewrite by_class_chip, E. reflexivity.
  - apply by_class_no_items. intros x. rewrite by_class_chip, E. reflexivity.
Qed.





(** X15: when [party_a_fault_percentage] is [null] the summary tab shows
    no fault box at all, also when the percentage of party B is present;
    if in addition no at-fault party is named, the fault assessment panel
    is its heading alone. *)
Theorem no_fault_boxes_without_party_a (result : Api.Result) :
  let fa := Api.fault_assessment (Api.analysis result) in
  Api.party_a_fault_percentage fa = Js.null ->
  AnalysisResults.faultDistribution result = Dom.nothing /\
  Dom.by_class Inv.fault_box_class (AnalysisResults.summaryTab result) = [] /\
  (Js.truthy (Api.preliminary_fault_party fa) = false ->
   List.filter Dom.is_elem (Dom.nodes (AnalysisResults.faultAssessment result))
   = [AnalysisResults.faultAssessment result;
      AnalysisResults.heading "FaBalanceScale" "Preliminary Fault Assessment";
      Dom.elem "FaBalanceScale" "mr-2 text-accent" []]).
Proof.
  intros fa Ha.
  assert (Hd : AnalysisResults.faultDistribution result = Dom.nothing).
  { unfold AnalysisResults.faultDistribution. fold fa. rewrite Ha. reflexivity. }
  split; [exact Hd|]. split.
  - unfold AnalysisResults.summaryTab, AnalysisResults.faultAssessment. rewrite Hd.
    unfold AnalysisResults.caseSummary, AnalysisResults.accidentDetails,
      AnalysisResults.heading, AnalysisResults.faultParty.
    by_class_search.
    destruct (Js.truthy _); reflexivity.
  - intros Hp. unfold AnalysisResults.faultAssessment. rewrite Hd.
    unfold AnalysisResults.faultParty, Dom.and_jsx. fold fa. rewrite Hp.
    destruct (Api.preliminary_fault_party fa); reflexivity.
Qed.

Lemma no_fault_boxes_without_party_a_witness :
  Api.party_b_fault_percentage (Api.fault_assessment (Api.analysis Example.faint))
  = Js.number 40 /\
  Dom.by_class Inv.fault_box_class (AnalysisResults.summaryTab Example.faint) = [].
Proof.
  split; [reflexivity|].
  apply (no_fault_boxes_without_party_a Example.faint). reflexivity.
Defined.

(** X16: each card of the parties tab shows the name, the plate and the
    vehicle type of its party, whatever their values, and the insurance row
    only when [insurance_company] is truthy; party A's rows come first. *)
Theorem insurance_row_needs_company (r : AnalysisResultsView.props) :
  let rows (p : AnalysisResultsView.Party) :=
    [Inv.row_label "Name:"; Inv.row_label "Vehicle Plate:"; Inv.row_label "Vehicle Type:"]
    ++ (if Js.truthy (AnalysisResultsView.insurance_company p)
        then [Inv.row_label "Insurance:"] else []) in
  Dom.by_class Inv.row_label_class (AnalysisResultsView.partiesTab r)
  = rows (AnalysisResultsView.party_a r) ++ rows (AnalysisResultsView.party_b r).
Proof.
  intros rows. subst rows.
  unfold AnalysisResultsView.partiesTab, AnalysisResultsView.partyCard,
    AnalysisResultsView.partyRow, Inv.row_label.
  by_class_search.
  destruct (Js.truthy (AnalysisResultsView.insurance_company (AnalysisResultsView.party_a r)));
    destruct (Js.truthy (AnalysisResultsView.insurance_company (AnalysisResultsView.party_b r)));
    reflexivity.
Qed.

Lemma string_length_app (s t : string) :
  String.length (s +:+ t) = String.length s + String.length t.
Proof.
  induction s as [|c s IH]; [reflexivity|].
  change (S (String.length (s +:+ t)) = S (String.length s + String.length t)).
  rewrite IH. reflexivity.
Qed.

Lemma string_app_inv_tail (s1 s2 t : string) : s1 +:+ t = s2 +:+ t -> s1 = s2.
Proof.
  revert s2; induction s1 as [|c s1 IH]; intros [|d s2] H.
  - reflexivity.
  - apply (f_equal String.length) in H.
    change (String.length t = S (String.length (s2 +:+ t))) in H.
    rewrite string_length_app in H. lia.
  - apply (f_equal String.length) in H.
    change (S (String.length (s1 +:+ t)) = String.length t) in H.
    rewrite string_length_app in H. lia.
  - change (String c (s1 +:+ t) = String d (s2 +:+ t)) in H.
    injection H as -> H. f_equal. apply IH. assumption.
Qed.

(** X17: the HTML download saves one file, whose content is the
    [briefing_html] of the result; two results whose downloads carry the
    same file name have the same [session_id]; and a format other than
    [html] saves no file. *)
Theorem briefing_file_names_tell_sessions (r1 r2 : Api.Result) (format : string) :
  map snd (AnalysisResults.saved (AnalysisResults.downloadBriefing "html" r1))
  = [Api.briefing_html r1] /\
  (map fst (AnalysisResults.saved (AnalysisResults.downloadBriefing "html" r1))
   = map fst (AnalysisResults.saved (AnalysisResults.downloadBriefing "html" r2)) ->
   Api.session_id r1 = Api.session_id r2) /\
  (format <> "html" ->
   AnalysisResults.saved (AnalysisResults.downloadBriefing format r1) = []).
Proof.
  split; [reflexivity|]. split.
  - rewrite !downloadBriefing_html. cbn [map fst]. intros [= H].
    apply (string_app_inv_tail _ _ ".html"). exact H.
  - intros Hf. unfold AnalysisResults.downloadBriefing.
    apply String.eqb_neq in Hf. rewrite Hf.
    destruct (String.eqb format "pdf"); reflexivity.
Qed.

Lemma briefing_file_names_tell_sessions_witness :
  "pdf" <> "html" /\
  AnalysisResults.saved (AnalysisResults.downloadBriefing "pdf" Example.faint) = [].
Proof.
  split; [discriminate|].
  apply (briefing_file_names_tell_sessions Example.faint Example.faint "pdf").
  discriminate.
Defined.

(** X18: whatever tab buttons are clicked, [activeTab] is the identifier of
    one of the four tabs: exactly one button carries the active class, the
    one of that tab, and [renderTabContent] renders an element, never the
    [null] of its default case. *)
Theorem one_tab_is_active (parse : string -> list Dom.node)
    (r : AnalysisResultsView.props) (activeTab : string) :
  AnalysisResultsView.tab_reachable activeTab ->
  exists label,
    In (activeTab, label) AnalysisResultsView.tabs /\
    Dom.by_class (AnalysisResultsView.tab_class activeTab activeTab)
      (AnalysisResultsView.tabBar activeTab)
    = [AnalysisResultsView.tabButton activeTab (activeTab, label)] /\
    Dom.is_elem (AnalysisResultsView.renderTabContent parse activeTab r) = true.
Proof.
  intros Hr.
  assert (Hin : In activeTab (map fst AnalysisResultsView.tabs)).
  { destruct Hr as [|a tab _ Htab]; [left; reflexivity|].
    apply in_map. assumption. }
  cbn in Hin.
  destruct Hin as [<-|[<-|[<-|[<-|[]]]]].
  - exists "Summary". repeat split. left; reflexivity.
  - exists "Parties". repeat split. right; left; reflexivity.
  - exists "Details". repeat split. right; right; left; reflexivity.
  - exists "Full Report". repeat split. right; right; right; left; reflexivity.
Qed.

Lemma one_tab_is_active_witness :
  AnalysisResultsView.tab_reachable "full" /\
  exists label,
    In ("full", label) AnalysisResultsView.tabs /\
    Dom.by_class (AnalysisResultsView.tab_class "full" "full")
      (AnalysisResultsView.tabBar "full")
    = [AnalysisResultsView.tabButton "full" ("full", label)] /\
    Dom.is_elem (AnalysisResultsView.renderTabContent Example.plain_parse "full"
                   Example.props) = true.
Proof.
  assert (H : AnalysisResultsView.tab_reachable "full").
  { apply (AnalysisResultsView.tab_click "details" ("full", "Full Report")).
    - apply (AnalysisResultsView.tab_click AnalysisResultsView.initialTab
               ("details", "Details")).
      + apply AnalysisResultsView.tab_initial.
      + right; right; left; reflexivity.
    - right; right; right; left; reflexivity. }
  split; [exact H|].
  apply (one_tab_is_active Example.plain_parse Example.props "full" H).
Defined.

(** ** The size of the selected report *)

Lemma megabytes_hundredths (f : File.t) :
  JsNumber.hundredths (UploadSectionView.megabytes f)
  = ((File.size f * 100 + 524288) / 1048576)%N.
Proof.
  unfold JsNumber.hundredths, UploadSectionView.megabytes.
  set (n := Z.of_N (File.size f)).
  assert (Hq : (inject_Z n / 1024 / 1024 * 100 + (1 # 2)
                == (n * 100 + 524288) # 1048576)%Q).
  { unfold Qeq. cbn. lia. }
  rewrite (Qfloor_comp _ _ Hq).
  change (Qfloor ((n * 100 + 524288) # 1048576)) with ((n * 100 + 524288) / 1048576)%Z.
  subst n. apply N2Z.inj.
  rewrite Z2N.id by (apply Z.div_pos; lia).
  rewrite N2Z.inj_div, N2Z.inj_add, N2Z.inj_mul. reflexivity.
Qed.

Lemma megabytes_nonnegative (f : File.t) :
  (Qnum (UploadSectionView.megabytes f) <? 0)%Z = false.
Proof.
  apply Z.ltb_ge. unfold UploadSectionView.megabytes. cbn. lia.
Qed.

(** X19: the size printed for the selected report is the number of bytes
    divided by 1048576 and rounded half up to two decimals; on every
    reachable page it is at most 10.00, and a report of fewer than 5243
    bytes is printed as 0.00 MB. *)
Theorem report_size_shown_up_to_ten (e : App.env) (p : App.page) (f : File.t) :
  App.reachable e p ->
  UploadSection.mainReport (App.form p) = Some f ->
  let h := ((File.size f * 100 + 524288) / 1048576)%N in
  JsNumber.toFixed2 (UploadSectionView.megabytes f)
  = JsNumber.decimal (h / 100) +:+ "." +:+ JsNumber.two_digits (h mod 100) /\
  (h <= 1000)%N /\
  ((File.size f < 5243)%N ->
   UploadSectionView.reportSummary f
   = Dom.elem "div" "text-left"
       [Dom.elem "p" "font-semibold" [Dom.text (File.name f)];
        Dom.elem "p" "text-sm text-gray-600" [Dom.text "0.00"; Dom.text " MB"]]).
Proof.
  intros Hr Hf h.
  assert (Hfix : JsNumber.toFixed2 (UploadSectionView.megabytes f)
                 = JsNumber.decimal (h / 100) +:+ "." +:+ JsNumber.two_digits (h mod 100)).
  { unfold JsNumber.toFixed2.
    rewrite megabytes_nonnegative, megabytes_hundredths. reflexivity. }
  split; [exact Hfix|]. split.
  - destruct (reachable_ok e p Hr) as (_ & Hrep & _).
    apply Hrep, (accepted_size UploadSection.reportOptions) in Hf.
    cbn [UploadSection.reportOptions Dropzone.maxSize] in Hf.
    assert (Hlt : (h < 1001)%N)
      by (subst h; apply N.Div0.div_lt_upper_bound; lia).
    lia.
  - intros Hsmall. unfold UploadSectionView.reportSummary. rewrite Hfix.
    assert (H0 : h = 0%N) by (subst h; apply N.div_small; lia).
    rewrite H0. reflexivity.
Qed.

Lemma report_size_shown_up_to_ten_witness :
  App.reachable Sample.env Sample.filled /\
  UploadSection.mainReport (App.form Sample.filled) = Some Sample.pdf /\
  JsNumber.toFixed2 (UploadSectionView.megabytes Sample.pdf) = "0.20".
Proof.
  split; [repeat apply App.reachable_act; apply App.reachable_start|].
  split; [reflexivity|].
  apply (report_size_shown_up_to_ten Sample.env Sample.filled Sample.pdf).
  - repeat apply App.reachable_act. apply App.reachable_start.
  - reflexivity.
Defined.

(** ** What sends a request *)

(** X20: an action on the page sends at most one request and never alters
    the requests already sent; only a click on the submit button, on the
    upload screen with a report selected, sends one. *)
Theorem only_submit_sends (e : App.env) (server : Axios.request -> Axios.reply)
    (p : App.page) (a : App.action) :
  exists reqs,
    App.sent (App.act e server p a) = App.sent p ++ reqs /\
    length reqs <= 1 /\
    (reqs <> [] ->
     a = App.ClickSubmit /\
     App.main_screen (App.app p) = App.UploadScreen /\
     UploadSection.submit_enabled (App.form p) = true).
Proof.
  assert (Hnone : forall sent' : list Axios.request,
            sent' = App.sent p ->
            exists reqs,
              sent' = App.sent p ++ reqs /\ length reqs <= 1 /\
              (reqs <> [] ->
               a = App.ClickSubmit /\
               App.main_screen (App.app p) = App.UploadScreen /\
               UploadSection.submit_enabled (App.form p) = true)).
  { intros sent' ->. exists []. rewrite app_nil_r.
    split; [reflexivity|]. split; [cbn; lia | congruence]. }
  unfold App.act.
  destruct (App.main_screen (App.app p)) eqn:Escreen, a;
    try (apply Hnone; reflexivity).
  clear Hnone. unfold UploadSection.submit_enabled, App.submit.
  destruct (UploadSection.mainReport (App.form p)) as [f|] eqn:E.
  - rewrite (handleSubmit_present _ f E). unfold App.handleAnalyze.
    eexists. split; [reflexivity|]. split; [cbn; lia|].
    intros _. repeat split.
  - exists []. rewrite app_nil_r.
    split; [reflexivity|]. split; [cbn; lia | congruence].
Qed.

Lemma only_submit_sends_witness :
  exists reqs,
    App.sent (App.act Sample.env Sample.good_server Sample.filled App.ClickSubmit)
    = App.sent Sample.filled ++ reqs /\ length reqs <= 1.
Proof.
  destruct (only_submit_sends Sample.env Sample.good_server Sample.filled App.ClickSubmit)
    as (reqs & H1 & H2 & _).
  exists reqs. split; assumption.
Defined.
